(** * Tax computation engine: entity classification and VAT

    A shallow embedding of the two computation modules of the repository,
    [src/lib/tax/entity-classification.ts] and [src/lib/tax/vat-computation.ts],
    with the properties their specification states about them.

    Conventions of the embedding.
    - A JavaScript [number] holding an amount or a rate is an exact rational
      in canonical form ([Qc]), so that [=] on numbers is numeric equality.
      IEEE-754 rounding, [NaN] and the infinities are outside the model.
    - An optional field ([field?: T], or a field of a [Partial<...>]) is an
      [option]; [None] is [undefined].
    - A function that can [throw] returns a [Completion].
    - What the engine asks of the JavaScript runtime (number and date
      formatting for a locale, parsing a date string, the local calendar
      year of an instant, the wall clock) is a [Variable] of the section
      that embeds the module: every theorem holds for any runtime.  A
      reference runtime ([Runtime]) is used to evaluate the code on concrete
      inputs. *)

From Stdlib Require Import ZArith QArith Qcanon Qround Lqa Lia.
From Stdlib Require Import List String Ascii Bool DecimalString.
Import ListNotations.

Open Scope string_scope.
Open Scope Qc_scope.

(* ================================================================== *)
(** * JavaScript values *)
(* ================================================================== *)

Module JS.

(** [number], restricted to exact finite values. *)
Definition number : Set := Qc.

(** A numeric literal of the source, [0.275] or [50_000_000]. *)
Definition lit (q : Q) : number := Q2Qc q.

(** [a < b] and [a <= b] on numbers. *)
Definition lt (a b : number) : bool := negb (Qle_bool b a).
Definition le (a b : number) : bool := Qle_bool a b.

(** [Math.max(a, b)] and [Math.abs(a)]. *)
Definition Math_max (a b : number) : number := if lt a b then b else a.
Definition Math_abs (a : number) : number := if lt a 0 then - a else a.

(** Truthiness of an optional number, an optional string and an optional
    boolean: [undefined], [0], the empty string and [false] are falsy. *)
Definition truthy_number (x : option number) : bool :=
  match x with
  | Some v => negb (Qeq_bool v 0)
  | None => false
  end.

Definition truthy_string (x : option string) : bool :=
  match x with
  | Some EmptyString => false
  | Some (String _ _) => true
  | None => false
  end.

Definition truthy_bool (x : option bool) : bool :=
  match x with
  | Some b => b
  | None => false
  end.

(** [x || d] on an optional number. *)
Definition or_default (x : option number) (d : number) : number :=
  match x with
  | Some v => if Qeq_bool v 0 then d else v
  | None => d
  end.

(** [array.push(item1, ..., itemN)]: the items are appended in order. *)
Definition push {A : Type} (array items : list A) : list A :=
  (array ++ items)%list.
Arguments push {A} array items : clear scopes.

(** A template literal's rendering of an array length. *)
Definition string_of_length (n : nat) : string :=
  NilEmpty.string_of_uint (Nat.to_uint n).

(** The time value of a [Date] object: milliseconds since the epoch, or
    [None] for an invalid date (whose time value is [NaN]). *)
Definition Date : Set := option Z.

(** [a >= b] and [a <= b] on [Date] objects compare their time values;
    a comparison with [NaN] is false. *)
Definition Date_le (a b : Date) : bool :=
  match a, b with
  | Some x, Some y => Z.leb x y
  | _, _ => false
  end.
Definition Date_ge (a b : Date) : bool := Date_le b a.

(** [year === k], [year >= k] and [year <= k] for the result of
    [getFullYear()], which is [NaN] ([None]) on an invalid date. *)
Definition year_eq (year : option Z) (k : Z) : bool :=
  match year with Some y => (y =? k)%Z | None => false end.
Definition year_ge (year : option Z) (k : Z) : bool :=
  match year with Some y => (k <=? y)%Z | None => false end.
Definition year_le (year : option Z) (k : Z) : bool :=
  match year with Some y => (y <=? k)%Z | None => false end.

(** [text.toLowerCase()] and [text.trim()], on ASCII text. *)
Definition lower (c : ascii) : ascii :=
  let n := nat_of_ascii c in
  if ((65 <=? n) && (n <=? 90))%nat then ascii_of_nat (n + 32) else c.

Fixpoint toLowerCase (text : string) : string :=
  match text with
  | EmptyString => EmptyString
  | String c rest => String (lower c) (toLowerCase rest)
  end.

Definition is_space (c : ascii) : bool :=
  let n := nat_of_ascii c in
  ((n =? 32) || ((9 <=? n) && (n <=? 13)))%nat.

Fixpoint trimStart (text : string) : string :=
  match text with
  | EmptyString => EmptyString
  | String c rest => if is_space c then trimStart rest else text
  end.

Fixpoint trimEnd (text : string) : string :=
  match text with
  | EmptyString => EmptyString
  | String c rest =>
      match trimEnd rest with
      | EmptyString => if is_space c then EmptyString else String c EmptyString
      | kept => String c kept
      end
  end.

Definition trim (text : string) : string := trimEnd (trimStart text).

(** [text.includes(keyword)]. *)
Fixpoint includes (text keyword : string) : bool :=
  if String.prefix keyword text then true
  else match text with
       | EmptyString => false
       | String _ rest => includes rest keyword
       end.

(** A property of a request body or of a [Partial<...>] that is tested
    against both [undefined] and [null]. *)
Inductive Optional (A : Type) : Type :=
| Undefined
| Null
| Defined (value : A).
Arguments Undefined {A}.
Arguments Null {A}.
Arguments Defined {A} value.

(** How a call completes: it returns a value or throws an [Error]. *)
Inductive Completion (A : Type) : Type :=
| Return (value : A)
| Throw (message : string).
Arguments Return {A} value.
Arguments Throw {A} message.

End JS.

Import JS.

(* ================================================================== *)
(** * A reference runtime *)
(* ================================================================== *)

(** The runtime services of an engine whose clock and time zone are UTC,
    fed with ISO calendar dates ([YYYY-MM-DD]).  It is used only to run the
    embedded code on concrete inputs; no theorem about the engine depends
    on it. *)
Module Runtime.

Definition decimal (n : Z) : string :=
  NilZero.string_of_uint (N.to_uint (Z.to_N n)).

(** Digits in groups of three, from the right. *)
Fixpoint grouped (digits : string) : string :=
  match digits with
  | EmptyString => EmptyString
  | String c rest =>
      let n := String.length rest in
      if negb (n =? 0)%nat && (n mod 3 =? 0)%nat
      then String c (String "," (grouped rest))
      else String c (grouped rest)
  end.

Definition two_digits (n : Z) : string :=
  if (n <? 10)%Z then "0" ++ decimal n else decimal n.

(** Two fraction digits, rounded half away from zero, grouped integer
    part: [1234.5] is rendered [1,234.50]. *)
Definition toLocaleString_en_NG (amount : number) : string :=
  let hundredths := Qfloor (this (Math_abs amount) * 100 + (1 # 2))%Q in
  (if lt amount 0 then "-" else EmptyString)
    ++ grouped (decimal (hundredths / 100)) ++ "." ++ two_digits (hundredths mod 100).

(** Days since 1970-01-01 of a date of the proleptic Gregorian calendar,
    and back. *)
Definition days_from_civil (y m d : Z) : Z :=
  let y := if (m <=? 2)%Z then (y - 1)%Z else y in
  let era := (y / 400)%Z in
  let yoe := (y - era * 400)%Z in
  let mp := if (m <=? 2)%Z then (m + 9)%Z else (m - 3)%Z in
  let doy := ((153 * mp + 2) / 5 + d - 1)%Z in
  let doe := (yoe * 365 + yoe / 4 - yoe / 100 + doy)%Z in
  (era * 146097 + doe - 719468)%Z.

Definition civil_from_days (z : Z) : Z * Z * Z :=
  let z := (z + 719468)%Z in
  let era := (z / 146097)%Z in
  let doe := (z - era * 146097)%Z in
  let yoe := ((doe - doe / 1460 + doe / 36524 - doe / 146096) / 365)%Z in
  let doy := (doe - (365 * yoe + yoe / 4 - yoe / 100))%Z in
  let mp := ((5 * doy + 2) / 153)%Z in
  let d := (doy - (153 * mp + 2) / 5 + 1)%Z in
  let m := if (mp <? 10)%Z then (mp + 3)%Z else (mp - 9)%Z in
  let y := (yoe + era * 400)%Z in
  (if (m <=? 2)%Z then (y + 1)%Z else y, m, d).

Definition ms_per_day : Z := 86400000.

Definition is_leap (y : Z) : bool :=
  ((y mod 4 =? 0) && negb (y mod 100 =? 0) || (y mod 400 =? 0))%Z.

Definition days_in_month (y m : Z) : Z :=
  if (m =? 2)%Z then (if is_leap y then 29 else 28)%Z
  else if ((m =? 4) || (m =? 6) || (m =? 9) || (m =? 11))%Z then 30%Z
  else 31%Z.

Definition digit (c : ascii) : option Z :=
  let n := nat_of_ascii c in
  if ((48 <=? n) && (n <=? 57))%nat then Some (Z.of_nat (n - 48)) else None.

Definition number_of (cs : list ascii) : option Z :=
  fold_left
    (fun acc c =>
       match acc, digit c with
       | Some n, Some k => Some (10 * n + k)%Z
       | _, _ => None
       end)
    cs (Some 0%Z).

(** [new Date(text)] for a calendar date [YYYY-MM-DD]: midnight UTC of
    that day; any other text is an invalid date here. *)
Definition Date_parse (text : string) : Date :=
  match list_ascii_of_string text with
  | [y1; y2; y3; y4; "-"%char; m1; m2; "-"%char; d1; d2] =>
      match number_of [y1; y2; y3; y4], number_of [m1; m2], number_of [d1; d2] with
      | Some y, Some m, Some d =>
          if ((1 <=? m) && (m <=? 12) && (1 <=? d) && (d <=? days_in_month y m))%Z
          then Some (days_from_civil y m d * ms_per_day)%Z
          else None
      | _, _, _ => None
      end
  | _ => None
  end.

(** [getFullYear()] of a valid date, in the UTC zone. *)
Definition Date_getFullYear (time : Z) : Z :=
  let '(y, _, _) := civil_from_days (time / ms_per_day) in y.

Definition month_short (m : Z) : string :=
  nth (Z.to_nat (m - 1))
    ["Jan"; "Feb"; "Mar"; "Apr"; "May"; "Jun";
     "Jul"; "Aug"; "Sep"; "Oct"; "Nov"; "Dec"] EmptyString.

(** [toLocaleDateString("en-NG", { year: "numeric", month: "short",
    day: "numeric" })]: [1 Jun 2025]. *)
Definition toLocaleDateString_en_NG (date : Date) : string :=
  match date with
  | Some time =>
      let '(y, m, d) := civil_from_days (time / ms_per_day) in
      decimal d ++ " " ++ month_short m ++ " " ++ decimal y
  | None => "Invalid Date"
  end.

(** [new Date()]: the clock of the reference runtime stands at
    2026-01-01. *)
Definition clock : Date := Date_parse "2026-01-01".

End Runtime.

(* ================================================================== *)
(** * Entity classification ([entity-classification.ts]) *)
(* ================================================================== *)

Module EntityClassification.

Inductive Classification : Set := SMALL | STANDARD.

Record ClassificationInput : Set := {
  turnover : number;
  fixedAssets : number;
  isProfessionalServices : bool;
  industryCode : option string
}.

Record Thresholds : Set := {
  turnoverThreshold : number;
  assetsThreshold : number;
  turnoverMet : bool;
  assetsMet : bool
}.

Record TaxImplications : Set := {
  citRate : number;
  devLevyRate : number;
  vatApplicable : bool
}.

Record ClassificationResult : Set := {
  classification : Classification;
  citExempt : bool;
  devLevyApplicable : bool;
  reasoning : list string;
  thresholds : Thresholds;
  taxImplications : TaxImplications
}.

(** [CLASSIFICATION_THRESHOLDS]. *)
Definition TURNOVER_THRESHOLD : number := lit 50000000.
Definition ASSETS_THRESHOLD : number := lit 250000000.

(** [TAX_RATES]. *)
Definition CIT_2025 : number := lit 0.275.
Definition CIT_2026_ONWARDS : number := lit 0.25.
Definition DEV_LEVY_2025_2026 : number := lit 0.04.
Definition DEV_LEVY_2027_2029 : number := lit 0.03.
Definition DEV_LEVY_2030_ONWARDS : number := lit 0.02.

(** The [failureReason] argument of [buildStandardResult]. *)
Inductive FailureReason : Set :=
| professional_services
| turnover_failed
| assets_failed
| both_thresholds.

(** [PROFESSIONAL_SERVICES_KEYWORDS]. *)
Definition PROFESSIONAL_SERVICES_KEYWORDS : list string := [
  "legal"; "law"; "accounting"; "audit"; "consulting"; "architecture";
  "engineering"; "medical"; "healthcare"; "financial advisory";
  "tax advisory"; "management consulting" ].

(** [Partial<ClassificationInput>], as [validateClassificationInput]
    receives it from a request body. *)
Module PartialClassificationInput.
Record t : Set := {
  turnover : Optional number;
  fixedAssets : Optional number;
  isProfessionalServices : Optional bool;
  industryCode : Optional string
}.
End PartialClassificationInput.

(** [{ valid: boolean; errors: string[] }]. *)
Module ValidationResult.
Record t : Set := {
  valid : bool;
  errors : list string
}.
End ValidationResult.

Section Engine.

(** [amount.toLocaleString("en-NG", { minimumFractionDigits: 2,
    maximumFractionDigits: 2 })]. *)
Variable toLocaleString_en_NG : number -> string.

(** [new Date().getFullYear()], the calendar year of the wall clock. *)
Variable clock_getFullYear : Z.

Definition formatCurrency (amount : number) : string :=
  toLocaleString_en_NG amount.

Definition buildStandardResult (input : ClassificationInput)
    (reasoning : list string) (failureReason : FailureReason)
    : ClassificationResult :=
  let reasoning := push reasoning [
    EmptyString;
    "❌ CLASSIFICATION: STANDARD COMPANY";
    "Tax implications:";
    "  • Subject to Company Income Tax (CIT) at 25% (from 2026)";
    "  • Subject to Development Levy at 4% (2025-2026)";
    "  • Subject to VAT at applicable rates" ] in
  let turnoverMet := le (turnover input) TURNOVER_THRESHOLD in
  let assetsMet := le (fixedAssets input) ASSETS_THRESHOLD in
  {| classification := STANDARD;
     citExempt := false;
     devLevyApplicable := true;
     reasoning := reasoning;
     thresholds := {|
       turnoverThreshold := TURNOVER_THRESHOLD;
       assetsThreshold := ASSETS_THRESHOLD;
       turnoverMet := turnoverMet;
       assetsMet := assetsMet |};
     taxImplications := {|
       citRate := CIT_2026_ONWARDS;
       devLevyRate := DEV_LEVY_2025_2026;
       vatApplicable := true |} |}.

Definition classifyEntity (input : ClassificationInput)
    : Completion ClassificationResult :=
  let reasoning : list string := [] in
  (* Validate inputs *)
  if lt (turnover input) 0 || lt (fixedAssets input) 0 then
    Throw "Turnover and fixed assets must be non-negative"
  else
  (* Step 1: professional services exclusion *)
  if isProfessionalServices input then
    let reasoning := push reasoning [
      "❌ Professional services exclusion";
      "Professional services businesses cannot qualify as SMALL companies per Section 56" ] in
    Return (buildStandardResult input reasoning professional_services)
  else
  (* Step 2: turnover threshold *)
  let turnoverMet := le (turnover input) TURNOVER_THRESHOLD in
  let reasoning := push reasoning [
    if turnoverMet then
      "✓ Turnover test: ₦" ++ formatCurrency (turnover input)
        ++ " ≤ ₦" ++ formatCurrency TURNOVER_THRESHOLD
    else
      "✗ Turnover test: ₦" ++ formatCurrency (turnover input)
        ++ " > ₦" ++ formatCurrency TURNOVER_THRESHOLD ] in
  (* Step 3: fixed assets threshold *)
  let assetsMet := le (fixedAssets input) ASSETS_THRESHOLD in
  let reasoning := push reasoning [
    if assetsMet then
      "✓ Assets test: ₦" ++ formatCurrency (fixedAssets input)
        ++ " ≤ ₦" ++ formatCurrency ASSETS_THRESHOLD
    else
      "✗ Assets test: ₦" ++ formatCurrency (fixedAssets input)
        ++ " > ₦" ++ formatCurrency ASSETS_THRESHOLD ] in
  (* Step 4: both thresholds must be met *)
  let isSmall := turnoverMet && assetsMet in
  if isSmall then
    let reasoning := push reasoning [
      EmptyString;
      "✅ CLASSIFICATION: SMALL COMPANY";
      "Tax implications:";
      "  • EXEMPT from Company Income Tax (CIT)";
      "  • NOT subject to Development Levy";
      "  • Subject to VAT at applicable rates" ] in
    Return
      {| classification := SMALL;
         citExempt := true;
         devLevyApplicable := false;
         reasoning := reasoning;
         thresholds := {|
           turnoverThreshold := TURNOVER_THRESHOLD;
           assetsThreshold := ASSETS_THRESHOLD;
           turnoverMet := turnoverMet;
           assetsMet := assetsMet |};
         taxImplications := {|
           citRate := 0;
           devLevyRate := 0;
           vatApplicable := true |} |}
  else
    let failureReason :=
      if negb turnoverMet && negb assetsMet then both_thresholds
      else if negb turnoverMet then turnover_failed
      else assets_failed in
    Return (buildStandardResult input reasoning failureReason).

(** [getCurrentTaxYear()]. *)
Definition getCurrentTaxYear : Z := clock_getFullYear.

(** [getCITRate(year = getCurrentTaxYear())]; [None] is the omitted
    argument. *)
Definition getCITRate (year : option Z) : number :=
  let year := match year with Some y => y | None => getCurrentTaxYear end in
  if (year =? 2025)%Z then CIT_2025 else CIT_2026_ONWARDS.

(** [getDevelopmentLevyRate(year = getCurrentTaxYear())]. *)
Definition getDevelopmentLevyRate (year : option Z) : number :=
  let year := match year with Some y => y | None => getCurrentTaxYear end in
  if (2025 <=? year)%Z && (year <=? 2026)%Z then DEV_LEVY_2025_2026
  else if (2027 <=? year)%Z && (year <=? 2029)%Z then DEV_LEVY_2027_2029
  else DEV_LEVY_2030_ONWARDS.

(** [isProfessionalServicesBusiness(businessDescription, industryCode?)];
    the second argument is not read. *)
Definition isProfessionalServicesBusiness (businessDescription : string)
    (industryCode : option string) : bool :=
  let lowerDescription := toLowerCase businessDescription in
  existsb (fun keyword => includes lowerDescription keyword)
    PROFESSIONAL_SERVICES_KEYWORDS.

(** [validateClassificationInput(input)]. *)
Definition validateClassificationInput (input : PartialClassificationInput.t)
    : ValidationResult.t :=
  let errors : list string := [] in
  let errors :=
    match PartialClassificationInput.turnover input with
    | Undefined | Null => push errors [ "Annual turnover is required" ]
    | Defined turnover =>
        if lt turnover 0
        then push errors [ "Annual turnover cannot be negative" ]
        else errors
    end in
  let errors :=
    match PartialClassificationInput.fixedAssets input with
    | Undefined | Null => push errors [ "Fixed assets value is required" ]
    | Defined fixedAssets =>
        if lt fixedAssets 0
        then push errors [ "Fixed assets value cannot be negative" ]
        else errors
    end in
  let errors :=
    match PartialClassificationInput.isProfessionalServices input with
    | Undefined | Null =>
        push errors [ "Professional services flag is required" ]
    | Defined _ => errors
    end in
  {| ValidationResult.valid := (List.length errors =? 0)%nat;
     ValidationResult.errors := errors |}.

(** A classification input as a request body that carries every field. *)
Definition present (input : ClassificationInput)
    : PartialClassificationInput.t :=
  {| PartialClassificationInput.turnover := Defined (turnover input);
     PartialClassificationInput.fixedAssets := Defined (fixedAssets input);
     PartialClassificationInput.isProfessionalServices :=
       Defined (isProfessionalServices input);
     PartialClassificationInput.industryCode :=
       match industryCode input with
       | Some code => Defined code
       | None => Undefined
       end |}.

End Engine.

(** Inputs on which the classifier is run below. *)
Definition at_both_thresholds : ClassificationInput :=
  {| turnover := lit 50000000;
     fixedAssets := lit 250000000;
     isProfessionalServices := false;
     industryCode := None |}.

Definition above_turnover_threshold : ClassificationInput :=
  {| turnover := lit 60000000;
     fixedAssets := lit 0;
     isProfessionalServices := false;
     industryCode := None |}.

(** A legal practice below both thresholds is STANDARD. *)
Definition legal_practice : ClassificationInput :=
  {| turnover := lit 1000000;
     fixedAssets := lit 500000;
     isProfessionalServices := true;
     industryCode := None |}.

(** A turnover of -1. *)
Definition negative_turnover : ClassificationInput :=
  {| turnover := lit (-1);
     fixedAssets := lit 0;
     isProfessionalServices := false;
     industryCode := None |}.

End EntityClassification.

(* ================================================================== *)
(** * VAT computation ([vat-computation.ts]) *)
(* ================================================================== *)

Module VatComputation.

Inductive InvoiceType : Set := OUTPUT | INPUT.

Module VATLineItem.
Record t : Set := {
  description : string;
  quantity : number;
  unitPrice : number;
  isBasicItem : option bool
}.
End VATLineItem.

Module VATInvoice.
Record t : Set := {
  id : option string;
  invoiceNumber : string;
  invoiceDate : string;
  customerName : string;
  customerTIN : option string;
  grossAmount : number;
  vatRate : number;
  vatAmount : number;
  totalAmount : number;
  invoiceType : InvoiceType;
  isBasicItem : option bool;
  lineItems : option (list VATLineItem.t)
}.
End VATInvoice.

(** [Partial<VATInvoice>], as [validateVATInvoice] receives it: every
    field may be missing, and [invoiceType] is whatever text the caller
    sent. *)
Module PartialVATInvoice.
Record t : Set := {
  id : option string;
  invoiceNumber : option string;
  invoiceDate : option string;
  customerName : option string;
  customerTIN : option string;
  grossAmount : option number;
  vatRate : option number;
  vatAmount : option number;
  totalAmount : option number;
  invoiceType : option string;
  isBasicItem : option bool;
  lineItems : option (list VATLineItem.t)
}.
End PartialVATInvoice.

(** [VATLineItem & { lineTotal; vat; total }]. *)
Module CalculatedLineItem.
Record t : Set := {
  item : VATLineItem.t;
  lineTotal : number;
  vat : number;
  total : number
}.
End CalculatedLineItem.

(** The argument of [calculateInvoiceVAT]. *)
Module InvoiceDetails.
Record t : Set := {
  invoiceNumber : string;
  invoiceDate : string;
  customerName : string;
  lineItems : list VATLineItem.t
}.
End InvoiceDetails.

Module VATInvoiceCalculation.
Record t : Set := {
  invoiceNumber : string;
  invoiceDate : string;
  subtotal : number;
  vatRate : number;
  vatAmount : number;
  totalAmount : number;
  lineItems : list CalculatedLineItem.t
}.
End VATInvoiceCalculation.

Module InvoiceCount.
Record t : Set := {
  output : nat;
  input : nat;
  total : nat
}.
End InvoiceCount.

Module VATPosition.
Record t : Set := {
  period : string;
  periodStart : string;
  periodEnd : string;
  outputVAT : number;
  inputVAT : number;
  netVATPayable : number;
  excessCredit : number;
  invoiceCount : InvoiceCount.t;
  summary : list string
}.

(** [position.netVATPayable = value]. *)
Definition set_netVATPayable (position : t) (value : number) : t :=
  {| period := period position;
     periodStart := periodStart position;
     periodEnd := periodEnd position;
     outputVAT := outputVAT position;
     inputVAT := inputVAT position;
     netVATPayable := value;
     excessCredit := excessCredit position;
     invoiceCount := invoiceCount position;
     summary := summary position |}.

(** [position.summary.push(...)]. *)
Definition push_summary (position : t) (lines : list string) : t :=
  {| period := period position;
     periodStart := periodStart position;
     periodEnd := periodEnd position;
     outputVAT := outputVAT position;
     inputVAT := inputVAT position;
     netVATPayable := netVATPayable position;
     excessCredit := excessCredit position;
     invoiceCount := invoiceCount position;
     summary := push (summary position) lines |}.
End VATPosition.

(** An element of the argument of [computeCumulativeVATPosition]. *)
Module Period.
Record t : Set := {
  invoices : list VATInvoice.t;
  start : string;
  end_ : string
}.
End Period.

(** [VAT_RATES]; the unused [EXEMPT: null] entry is left out. *)
Definition BASIC_ITEMS : number := 0.
Definition STANDARD_2025 : number := lit 0.1.
Definition STANDARD_2026_2029 : number := lit 0.125.
Definition STANDARD_2030 : number := lit 0.15.

Definition BASIC_ITEMS_KEYWORDS : list string := [
  "bread"; "rice"; "maize"; "wheat"; "millet"; "barley"; "sorghum"; "oats";
  "beans"; "milk"; "fish"; "meat"; "chicken"; "egg";
  "cooking oil"; "palm oil"; "vegetable oil"; "salt";
  "yam"; "cassava"; "potato"; "plantain"; "garri";
  "honey"; "flour" ].

(** [isBasicItem(description)]. *)
Definition isBasicItem (description : string) : bool :=
  let normalized := trim (toLowerCase description) in
  existsb (fun keyword => includes normalized keyword) BASIC_ITEMS_KEYWORDS.

Module ValidationResult.
Record t : Set := {
  valid : bool;
  errors : list string
}.
End ValidationResult.

Section Engine.

(** [amount.toLocaleString("en-NG", { minimumFractionDigits: 2,
    maximumFractionDigits: 2 })]. *)
Variable toLocaleString_en_NG : number -> string.

(** [date.toLocaleDateString("en-NG", { year: "numeric",
    month: "short", day: "numeric" })]. *)
Variable toLocaleDateString_en_NG : Date -> string.

(** [new Date(text)]. *)
Variable Date_parse : string -> Date.

(** The local calendar year of a valid time value. *)
Variable Date_getFullYear : Z -> Z.

(** [new Date()], the wall clock. *)
Variable clock : Date.

(** [date.getFullYear()]: [NaN] on an invalid date. *)
Definition getFullYear (date : Date) : option Z :=
  option_map Date_getFullYear date.

Definition formatCurrency (amount : number) : string :=
  toLocaleString_en_NG amount.

Definition formatDate (dateString : string) : string :=
  let date := Date_parse dateString in
  toLocaleDateString_en_NG date.

(** [getVATRate(date = new Date())]; [None] is the omitted argument. *)
Definition getVATRate (date : option Date) : number :=
  let date := match date with Some d => d | None => clock end in
  let year := getFullYear date in
  if year_eq year 2025 then STANDARD_2025
  else if year_ge year 2026 && year_le year 2029 then STANDARD_2026_2029
  else STANDARD_2030.

(** [getApplicableVATRate(description, invoiceDate = new Date())]. *)
Definition getApplicableVATRate (description : string)
    (invoiceDate : option Date) : number :=
  let invoiceDate := match invoiceDate with Some d => d | None => clock end in
  if isBasicItem description then BASIC_ITEMS
  else getVATRate (Some invoiceDate).

(** The rate the callback below applies to a line:
    [item.isBasicItem ? VAT_RATES.BASIC_ITEMS : standardRate]. *)
Definition applicableRate (standardRate : number) (item : VATLineItem.t)
    : number :=
  if truthy_bool (VATLineItem.isBasicItem item) then BASIC_ITEMS
  else standardRate.

(** The callback of [invoice.lineItems.map] in [calculateInvoiceVAT].
    It reads and writes the enclosing [subtotal] and [totalVAT]; the
    state threaded here is those two variables and the array [map] has
    built so far. *)
Definition calculateLine (standardRate : number)
    (state : number * number * list CalculatedLineItem.t)
    (item : VATLineItem.t)
    : number * number * list CalculatedLineItem.t :=
  let '(subtotal, totalVAT, calculated) := state in
  let lineTotal := VATLineItem.quantity item * VATLineItem.unitPrice item in
  let applicableRate := applicableRate standardRate item in
  let lineVAT := lineTotal * applicableRate in
  let subtotal := subtotal + lineTotal in
  let totalVAT := totalVAT + lineVAT in
  (subtotal, totalVAT,
   push calculated [
     {| CalculatedLineItem.item := item;
        CalculatedLineItem.lineTotal := lineTotal;
        CalculatedLineItem.vat := lineVAT;
        CalculatedLineItem.total := lineTotal + lineVAT |} ]).

Definition calculateInvoiceVAT (invoice : InvoiceDetails.t)
    : VATInvoiceCalculation.t :=
  let invoiceDate := Date_parse (InvoiceDetails.invoiceDate invoice) in
  let standardRate := getVATRate (Some invoiceDate) in
  let '(subtotal, totalVAT, calculatedLineItems) :=
    fold_left (calculateLine standardRate)
      (InvoiceDetails.lineItems invoice) (0, 0, []) in
  {| VATInvoiceCalculation.invoiceNumber := InvoiceDetails.invoiceNumber invoice;
     VATInvoiceCalculation.invoiceDate := InvoiceDetails.invoiceDate invoice;
     VATInvoiceCalculation.subtotal := subtotal;
     VATInvoiceCalculation.vatRate := standardRate;
     VATInvoiceCalculation.vatAmount := totalVAT;
     VATInvoiceCalculation.totalAmount := subtotal + totalVAT;
     VATInvoiceCalculation.lineItems := calculatedLineItems |}.

(** [calculateSimpleVAT(grossAmount, invoiceDate = new Date(),
    isBasicItem = false)]. *)
Definition calculateSimpleVAT (grossAmount : number)
    (invoiceDate : option Date) (isBasicItem : option bool) : number :=
  let invoiceDate := match invoiceDate with Some d => d | None => clock end in
  let isBasicItem := match isBasicItem with Some b => b | None => false end in
  if isBasicItem then 0
  else
    let rate := getVATRate (Some invoiceDate) in
    grossAmount * rate.

(** The filter callback of [computeVATPosition]. *)
Definition inPeriod (periodStart periodEnd : string) (inv : VATInvoice.t)
    : bool :=
  let invDate := Date_parse (VATInvoice.invoiceDate inv) in
  let start := Date_parse periodStart in
  let end_ := Date_parse periodEnd in
  Date_ge invDate start && Date_le invDate end_.

Definition isOutput (inv : VATInvoice.t) : bool :=
  match VATInvoice.invoiceType inv with OUTPUT => true | INPUT => false end.

Definition isInput (inv : VATInvoice.t) : bool :=
  match VATInvoice.invoiceType inv with INPUT => true | OUTPUT => false end.

(** [Number(value)] of a number. *)
Definition Number (value : number) : number := value.

(** [invoices.reduce((sum, inv) => sum + Number(inv.vatAmount), 0)]. *)
Definition reduceVAT (invoices : list VATInvoice.t) : number :=
  fold_left (fun sum inv => sum + Number (VATInvoice.vatAmount inv))
    invoices 0.

Definition computeVATPosition (invoices : list VATInvoice.t)
    (periodStart periodEnd : string) : VATPosition.t :=
  (* Filter invoices within period *)
  let periodInvoices := filter (inPeriod periodStart periodEnd) invoices in
  (* Output VAT (sales) *)
  let outputInvoices := filter isOutput periodInvoices in
  let outputVAT := reduceVAT outputInvoices in
  (* Input VAT (purchases) *)
  let inputInvoices := filter isInput periodInvoices in
  let inputVAT := reduceVAT inputInvoices in
  (* Net position *)
  let netVATPayable := Math_max 0 (outputVAT - inputVAT) in
  let excessCredit := Math_max 0 (inputVAT - outputVAT) in
  (* Summary *)
  let summary : list string := [] in
  let summary := push summary [
    "VAT Position for " ++ formatDate periodStart ++ " to "
      ++ formatDate periodEnd ] in
  let summary := push summary [ EmptyString ] in
  let summary := push summary [
    "Output VAT (Sales): ₦" ++ formatCurrency outputVAT ] in
  let summary := push summary [
    "  From " ++ string_of_length (List.length outputInvoices)
      ++ " sales invoices" ] in
  let summary := push summary [ EmptyString ] in
  let summary := push summary [
    "Input VAT (Purchases): ₦" ++ formatCurrency inputVAT ] in
  let summary := push summary [
    "  From " ++ string_of_length (List.length inputInvoices)
      ++ " purchase invoices" ] in
  let summary := push summary [ EmptyString ] in
  let summary :=
    if lt 0 netVATPayable then
      push (push summary [
        "Net VAT Payable: ₦" ++ formatCurrency netVATPayable ])
        [ "Action: Remit to FIRS by 21st of following month" ]
    else if lt 0 excessCredit then
      push (push summary [
        "Excess Credit: ₦" ++ formatCurrency excessCredit ])
        [ "Action: Carry forward to next period" ]
    else
      push summary [ "Net VAT Position: ₦0.00 (balanced)" ] in
  {| VATPosition.period :=
       formatDate periodStart ++ " to " ++ formatDate periodEnd;
     VATPosition.periodStart := periodStart;
     VATPosition.periodEnd := periodEnd;
     VATPosition.outputVAT := outputVAT;
     VATPosition.inputVAT := inputVAT;
     VATPosition.netVATPayable := netVATPayable;
     VATPosition.excessCredit := excessCredit;
     VATPosition.invoiceCount := {|
       InvoiceCount.output := List.length outputInvoices;
       InvoiceCount.input := List.length inputInvoices;
       InvoiceCount.total := List.length periodInvoices |};
     VATPosition.summary := summary |}.

(** The body of the [for (const period of periods)] loop of
    [computeCumulativeVATPosition], on the loop's two variables
    [positions] and [carryForwardCredit]. *)
Definition cumulativeStep (state : list VATPosition.t * number)
    (period : Period.t) : list VATPosition.t * number :=
  let '(positions, carryForwardCredit) := state in
  let position :=
    computeVATPosition (Period.invoices period) (Period.start period)
      (Period.end_ period) in
  (* Apply carry-forward credit *)
  let '(position, carryForwardCredit) :=
    if lt 0 carryForwardCredit then
      let adjustedPayable :=
        Math_max 0 (VATPosition.netVATPayable position - carryForwardCredit) in
      let creditUsed := VATPosition.netVATPayable position - adjustedPayable in
      let position := VATPosition.set_netVATPayable position adjustedPayable in
      let carryForwardCredit := carryForwardCredit - creditUsed in
      let position := VATPosition.push_summary position [ EmptyString ] in
      let position := VATPosition.push_summary position [
        "Carry-forward credit applied: ₦" ++ formatCurrency creditUsed ] in
      (position, carryForwardCredit)
    else (position, carryForwardCredit) in
  (* Update carry-forward for next period *)
  let carryForwardCredit :=
    carryForwardCredit + VATPosition.excessCredit position in
  (push positions [ position ], carryForwardCredit).

(** The loop, from [positions = []] and [carryForwardCredit = 0]: the
    two variables when it ends. *)
Definition cumulativeLoop (periods : list Period.t)
    : list VATPosition.t * number :=
  fold_left cumulativeStep periods ([], 0).

Definition computeCumulativeVATPosition (periods : list Period.t)
    : list VATPosition.t :=
  fst (cumulativeLoop periods).

(** The six [if] statements of [validateVATInvoice], each on the
    [errors] array it may push to. *)
Definition checkInvoiceNumber (invoice : PartialVATInvoice.t)
    (errors : list string) : list string :=
  if negb (truthy_string (PartialVATInvoice.invoiceNumber invoice))
  then push errors [ "Invoice number is required" ]
  else errors.

Definition checkInvoiceDate (invoice : PartialVATInvoice.t)
    (errors : list string) : list string :=
  if negb (truthy_string (PartialVATInvoice.invoiceDate invoice))
  then push errors [ "Invoice date is required" ]
  else
    match PartialVATInvoice.invoiceDate invoice with
    | Some invoiceDate =>
        let date := Date_parse invoiceDate in
        match date with
        | None => push errors [ "Invalid invoice date format" ]
        | Some _ => errors
        end
    | None => errors
    end.

Definition checkCustomerName (invoice : PartialVATInvoice.t)
    (errors : list string) : list string :=
  if negb (truthy_string (PartialVATInvoice.customerName invoice))
  then push errors [ "Customer name is required" ]
  else errors.

(** [!invoice.grossAmount || invoice.grossAmount < 0]; a missing
    amount is not less than 0. *)
Definition checkGrossAmount (invoice : PartialVATInvoice.t)
    (errors : list string) : list string :=
  if negb (truthy_number (PartialVATInvoice.grossAmount invoice))
     || match PartialVATInvoice.grossAmount invoice with
        | Some grossAmount => lt grossAmount 0
        | None => false
        end
  then push errors [ "Valid gross amount is required" ]
  else errors.

Definition checkInvoiceType (invoice : PartialVATInvoice.t)
    (errors : list string) : list string :=
  if negb (truthy_string (PartialVATInvoice.invoiceType invoice))
     || negb (match PartialVATInvoice.invoiceType invoice with
              | Some invoiceType =>
                  existsb (String.eqb invoiceType) [ "OUTPUT"; "INPUT" ]
              | None => false
              end)
  then push errors [ "Invoice type must be OUTPUT or INPUT" ]
  else errors.

(** [if (invoice.grossAmount && invoice.vatRate !== undefined)]. *)
Definition checkVATAmount (invoice : PartialVATInvoice.t)
    (errors : list string) : list string :=
  match PartialVATInvoice.grossAmount invoice,
        PartialVATInvoice.vatRate invoice with
  | Some grossAmount, Some vatRate =>
      if truthy_number (Some grossAmount) then
        let expectedVAT := grossAmount * vatRate in
        let tolerance := lit 0.01 in
        if lt tolerance
             (Math_abs (or_default (PartialVATInvoice.vatAmount invoice) 0
                        - expectedVAT))
        then push errors [ "VAT amount does not match gross amount × VAT rate" ]
        else errors
      else errors
  | _, _ => errors
  end.

Definition validateVATInvoice (invoice : PartialVATInvoice.t)
    : ValidationResult.t :=
  let errors : list string := [] in
  let errors := checkInvoiceNumber invoice errors in
  let errors := checkInvoiceDate invoice errors in
  let errors := checkCustomerName invoice errors in
  let errors := checkGrossAmount invoice errors in
  let errors := checkInvoiceType invoice errors in
  let errors := checkVATAmount invoice errors in
  {| ValidationResult.valid := (List.length errors =? 0)%nat;
     ValidationResult.errors := errors |}.

(* -------------------------------------------------------------- *)
(** ** Definitions used to state the properties *)

(** Sum of a list of amounts. *)
Definition sum (amounts : list number) : number :=
  fold_right Qcplus 0 amounts.

(** The breakdown of one line, as the callback returns it. *)
Definition calculatedLine (standardRate : number) (item : VATLineItem.t)
    : CalculatedLineItem.t :=
  let lineTotal := VATLineItem.quantity item * VATLineItem.unitPrice item in
  let lineVAT := lineTotal * applicableRate standardRate item in
  {| CalculatedLineItem.item := item;
     CalculatedLineItem.lineTotal := lineTotal;
     CalculatedLineItem.vat := lineVAT;
     CalculatedLineItem.total := lineTotal + lineVAT |}.

(** The invoices of a period, in the specification's words: the period
    boundaries and the invoice date are dates, and
    [periodStart <= invoiceDate <= periodEnd]. *)
Definition withinPeriod (periodStart periodEnd : string)
    (inv : VATInvoice.t) : Prop :=
  exists start date end_ : Z,
    Date_parse periodStart = Some start
    /\ Date_parse (VATInvoice.invoiceDate inv) = Some date
    /\ Date_parse periodEnd = Some end_
    /\ (start <= date <= end_)%Z.

Definition standalone (period : Period.t) : VATPosition.t :=
  computeVATPosition (Period.invoices period) (Period.start period)
    (Period.end_ period).

(** The carry-forward rule in the specification's words.  With credit
    available, [creditUsed = min(carryForwardCredit, netVATPayable)]
    is taken off the period's payable amount and off the accumulator,
    and a note of the amount is appended to the summary. *)
Definition min (a b : number) : number := if le a b then a else b.

Definition applyCredit (carryForwardCredit : number)
    (position : VATPosition.t) : VATPosition.t * number :=
  if lt 0 carryForwardCredit then
    let creditUsed := min carryForwardCredit (VATPosition.netVATPayable position) in
    (VATPosition.push_summary
       (VATPosition.set_netVATPayable position
          (VATPosition.netVATPayable position - creditUsed))
       [ EmptyString;
         "Carry-forward credit applied: ₦" ++ formatCurrency creditUsed ],
     carryForwardCredit - creditUsed)
  else (position, carryForwardCredit).

(** The periods from left to right: each standalone position is
    adjusted by the credit carried so far, then its own, unadjusted
    excess credit is added to the accumulator.  The result is the
    adjusted positions and the credit left after the last period. *)
Fixpoint carryForward (carryForwardCredit : number)
    (periods : list Period.t) : list VATPosition.t * number :=
  match periods with
  | [] => ([], carryForwardCredit)
  | period :: rest =>
      let position := standalone period in
      let '(adjusted, remaining) := applyCredit carryForwardCredit position in
      let '(positions, final) :=
        carryForward (remaining + VATPosition.excessCredit position) rest in
      (adjusted :: positions, final)
  end.

(** A position of the cumulative result against the standalone position
    of its period: the same [outputVAT], [inputVAT] and [excessCredit],
    and a [netVATPayable] reduced by the credit used. *)
Definition adjustedFrom (period : Period.t) (position : VATPosition.t)
    : Prop :=
  VATPosition.outputVAT position = VATPosition.outputVAT (standalone period)
  /\ VATPosition.inputVAT position = VATPosition.inputVAT (standalone period)
  /\ VATPosition.excessCredit position
     = VATPosition.excessCredit (standalone period)
  /\ exists creditUsed : number,
       0 <= creditUsed
       /\ creditUsed <= VATPosition.netVATPayable (standalone period)
       /\ VATPosition.netVATPayable position
          = VATPosition.netVATPayable (standalone period) - creditUsed
       /\ VATPosition.netVATPayable position + creditUsed
            + VATPosition.inputVAT position
          = VATPosition.outputVAT position
            + VATPosition.excessCredit position.

(** What each check requires. *)
Definition nonEmpty (field : option string) : Prop :=
  exists (c : ascii) (text : string), field = Some (String c text).

(** The six requirements, each with the report of its check on an
    empty [errors] array. *)
Definition requirements (invoice : PartialVATInvoice.t)
    : list (list string * Prop) :=
  [ (checkInvoiceNumber invoice [],
     nonEmpty (PartialVATInvoice.invoiceNumber invoice));
    (checkInvoiceDate invoice [],
     exists (invoiceDate : string) (time : Z),
       PartialVATInvoice.invoiceDate invoice = Some invoiceDate
       /\ invoiceDate <> EmptyString
       /\ Date_parse invoiceDate = Some time);
    (checkCustomerName invoice [],
     nonEmpty (PartialVATInvoice.customerName invoice));
    (checkGrossAmount invoice [],
     exists grossAmount : number,
       PartialVATInvoice.grossAmount invoice = Some grossAmount
       /\ 0 < grossAmount);
    (checkInvoiceType invoice [],
     PartialVATInvoice.invoiceType invoice = Some "OUTPUT"
     \/ PartialVATInvoice.invoiceType invoice = Some "INPUT");
    (checkVATAmount invoice [],
     forall grossAmount vatRate : number,
       PartialVATInvoice.grossAmount invoice = Some grossAmount ->
       grossAmount <> 0 ->
       PartialVATInvoice.vatRate invoice = Some vatRate ->
       Math_abs
         (or_default (PartialVATInvoice.vatAmount invoice) 0
          - grossAmount * vatRate) <= lit 0.01) ].

(** A check reports nothing when its requirement holds and one message
    when it does not. *)
Definition reportsViolation (entry : list string * Prop) : Prop :=
  (fst entry = [] <-> snd entry)
  /\ (fst entry = [] \/ exists message : string, fst entry = [message]).

End Engine.

(* -------------------------------------------------------------- *)
(** ** Inputs on which the engine is run *)

(** The documented invoice: a laptop and a flagged basic item, dated
    1 June 2025. *)
Definition laptop : VATLineItem.t :=
  {| VATLineItem.description := "Laptop";
     VATLineItem.quantity := lit 1;
     VATLineItem.unitPrice := lit 500000;
     VATLineItem.isBasicItem := None |}.

Definition rice_flagged : VATLineItem.t :=
  {| VATLineItem.description := "Rice 50kg";
     VATLineItem.quantity := lit 2;
     VATLineItem.unitPrice := lit 50000;
     VATLineItem.isBasicItem := Some true |}.

Definition rice_unflagged : VATLineItem.t :=
  {| VATLineItem.description := "Rice 50kg";
     VATLineItem.quantity := lit 2;
     VATLineItem.unitPrice := lit 50000;
     VATLineItem.isBasicItem := None |}.

Definition invoice_of (lineItems : list VATLineItem.t) : InvoiceDetails.t :=
  {| InvoiceDetails.invoiceNumber := "INV-001";
     InvoiceDetails.invoiceDate := "2025-06-01";
     InvoiceDetails.customerName := "Customer Ltd";
     InvoiceDetails.lineItems := lineItems |}.

(** Two periods: purchases with 1000 of VAT in January 2025, then sales
    with 1500 of VAT in February 2025 (and a sale dated in March, outside
    the period). *)
Definition invoice (invoiceNumber date : string) (type : InvoiceType)
    (grossAmount vatAmount : number) : VATInvoice.t :=
  {| VATInvoice.id := None;
     VATInvoice.invoiceNumber := invoiceNumber;
     VATInvoice.invoiceDate := date;
     VATInvoice.customerName := "Customer Ltd";
     VATInvoice.customerTIN := None;
     VATInvoice.grossAmount := grossAmount;
     VATInvoice.vatRate := lit 0.1;
     VATInvoice.vatAmount := vatAmount;
     VATInvoice.totalAmount := grossAmount + vatAmount;
     VATInvoice.invoiceType := type;
     VATInvoice.isBasicItem := None;
     VATInvoice.lineItems := None |}.

Definition january : Period.t :=
  {| Period.invoices := [ invoice "P-1" "2025-01-15" INPUT (lit 10000) (lit 1000) ];
     Period.start := "2025-01-01";
     Period.end_ := "2025-01-31" |}.

Definition february : Period.t :=
  {| Period.invoices := [
       invoice "S-1" "2025-02-01" OUTPUT (lit 10000) (lit 1000);
       invoice "S-2" "2025-02-28" OUTPUT (lit 5000) (lit 500);
       invoice "S-3" "2025-03-01" OUTPUT (lit 7000) (lit 700) ];
     Period.start := "2025-02-01";
     Period.end_ := "2025-02-28" |}.

(** An invoice with every field well formed and a gross amount of 0. *)
Definition zero_gross_invoice : PartialVATInvoice.t :=
  {| PartialVATInvoice.id := None;
     PartialVATInvoice.invoiceNumber := Some "INV-001";
     PartialVATInvoice.invoiceDate := Some "2025-06-01";
     PartialVATInvoice.customerName := Some "Customer Ltd";
     PartialVATInvoice.customerTIN := None;
     PartialVATInvoice.grossAmount := Some 0;
     PartialVATInvoice.vatRate := Some (lit 0.1);
     PartialVATInvoice.vatAmount := Some 0;
     PartialVATInvoice.totalAmount := Some 0;
     PartialVATInvoice.invoiceType := Some "OUTPUT";
     PartialVATInvoice.isBasicItem := None;
     PartialVATInvoice.lineItems := None |}.

End VatComputation.

(* ================================================================== *)
(** * Proof tools for [number] *)
(* ================================================================== *)

(** Order and arithmetic on [number] reduce to [Q]. *)
Ltac qc2q :=
  try apply Qc_is_canon;
  unfold Qcle, Qclt, Qcminus, Qcplus, Qcopp, Qcmult in *;
  repeat match goal with
  | H : context [this (Q2Qc ?q)] |- _ =>
      change (this (Q2Qc q)) with (Qred q) in H; rewrite (Qred_correct q) in H
  | |- context [this (Q2Qc ?q)] =>
      change (this (Q2Qc q)) with (Qred q); rewrite (Qred_correct q)
  end.

(** Two numbers are distinct when their fractions are. *)
Ltac number_neq :=
  intros E; apply (f_equal this) in E; vm_compute in E; discriminate E.

Lemma le_true_iff (a b : number) : le a b = true <-> a <= b.
Proof. unfold le, Qcle. apply Qle_bool_iff. Qed.

Lemma le_false_iff (a b : number) : le a b = false <-> b < a.
Proof.
  unfold le, Qclt. rewrite <- not_true_iff_false, Qle_bool_iff.
  split; intro H; [apply Qnot_le_lt | apply Qlt_not_le]; exact H.
Qed.

Lemma lt_true_iff (a b : number) : lt a b = true <-> a < b.
Proof. unfold lt. rewrite negb_true_iff. apply le_false_iff. Qed.

Lemma lt_false_iff (a b : number) : lt a b = false <-> b <= a.
Proof. unfold lt. rewrite negb_false_iff. apply le_true_iff. Qed.

(* ================================================================== *)
(** * Properties of the entity classifier *)
(* ================================================================== *)

Section EntityClassificationProperties.

Import EntityClassification.

Variable toLocaleString_en_NG : number -> string.

Local Abbreviation classifyEntity :=
  (EntityClassification.classifyEntity toLocaleString_en_NG).

Lemma buildStandardResult_classification input reasoning failureReason :
  classification (buildStandardResult input reasoning failureReason) = STANDARD.
Proof. reflexivity. Qed.

(** C1. For a non-negative turnover and non-negative fixed assets,
    [classifyEntity] returns (it does not throw); the classification is
    SMALL exactly when turnover <= 50,000,000, fixedAssets <= 250,000,000
    (both comparisons inclusive) and the business is not a professional
    service; and [citExempt = true], [devLevyApplicable = false] hold
    exactly for SMALL, their opposites for STANDARD. *)
Theorem classifyEntity_small_iff (input : ClassificationInput) :
  0 <= turnover input ->
  0 <= fixedAssets input ->
  exists r : ClassificationResult,
    classifyEntity input = Return r
    /\ (classification r = SMALL <->
          turnover input <= lit 50000000
          /\ fixedAssets input <= lit 250000000
          /\ isProfessionalServices input = false)
    /\ (classification r = SMALL <->
          citExempt r = true /\ devLevyApplicable r = false)
    /\ (classification r = STANDARD ->
          citExempt r = false /\ devLevyApplicable r = true).
Proof.
  intros Ht Ha.
  apply lt_false_iff in Ht. apply lt_false_iff in Ha.
  unfold classifyEntity. rewrite Ht, Ha. cbn [orb].
  destruct (isProfessionalServices input) eqn:Hp.
  - eexists. split; [reflexivity|]. cbn.
    repeat split; intros; try discriminate; intuition discriminate.
  - destruct (le (turnover input) TURNOVER_THRESHOLD) eqn:Hturn;
    destruct (le (fixedAssets input) ASSETS_THRESHOLD) eqn:Hassets;
    cbn [andb negb]; eexists; (split; [reflexivity|]); cbn;
    try apply le_true_iff in Hturn; try apply le_true_iff in Hassets;
    try apply le_false_iff in Hturn; try apply le_false_iff in Hassets;
    unfold TURNOVER_THRESHOLD, ASSETS_THRESHOLD in *;
    repeat split; intros; try discriminate; try assumption;
    try tauto;
    match goal with
    | H : _ /\ _ /\ _ |- _ => destruct H as (H1 & H2 & _)
    | H : _ /\ _ |- _ => destruct H; discriminate
    end;
    exfalso; qc2q; lra.
Qed.

(** Whatever the year, a STANDARD result carries the two constants
    [CIT_2026_ONWARDS] and [DEV_LEVY_2025_2026]. *)
Lemma classifyEntity_standard_rates (input : ClassificationInput)
    (r : ClassificationResult) :
  classifyEntity input = Return r ->
  classification r = STANDARD ->
  citRate (taxImplications r) = CIT_2026_ONWARDS
  /\ devLevyRate (taxImplications r) = DEV_LEVY_2025_2026.
Proof.
  unfold classifyEntity.
  destruct (lt (turnover input) 0 || lt (fixedAssets input) 0);
    [discriminate|].
  destruct (isProfessionalServices input).
  - intros [= <-] _. split; reflexivity.
  - destruct (le (turnover input) TURNOVER_THRESHOLD && le (fixedAssets input) ASSETS_THRESHOLD).
    + intros [= <-]. discriminate.
    + intros [= <-] _. split; reflexivity.
Qed.

(** A negative amount aborts the classification. *)
Lemma classifyEntity_negative_throws (input : ClassificationInput) :
  turnover input < 0 \/ fixedAssets input < 0 ->
  classifyEntity input = Throw "Turnover and fixed assets must be non-negative".
Proof.
  intros H. unfold classifyEntity.
  assert (lt (turnover input) 0 || lt (fixedAssets input) 0 = true) as ->.
  { apply orb_true_iff. rewrite !lt_true_iff. exact H. }
  reflexivity.
Qed.

(** A professional-services business is STANDARD whatever its amounts. *)
Lemma classifyEntity_professional_services (input : ClassificationInput)
    (r : ClassificationResult) :
  isProfessionalServices input = true ->
  classifyEntity input = Return r ->
  classification r = STANDARD.
Proof.
  intros Hp. unfold classifyEntity. rewrite Hp.
  destruct (lt (turnover input) 0 || lt (fixedAssets input) 0);
    [discriminate|].
  intros [= <-]. reflexivity.
Qed.

End EntityClassificationProperties.

(* ------------------------------------------------------------------ *)
(** ** The classifier on the reference runtime *)

Section EntityClassificationExamples.

Import EntityClassification.

(** C1 at the boundary: turnover exactly 50,000,000 and fixed assets
    exactly 250,000,000. *)
Lemma classifyEntity_small_iff_at_thresholds :
  exists r : ClassificationResult,
    classifyEntity Runtime.toLocaleString_en_NG at_both_thresholds = Return r
    /\ (classification r = SMALL <->
          turnover at_both_thresholds <= lit 50000000
          /\ fixedAssets at_both_thresholds <= lit 250000000
          /\ isProfessionalServices at_both_thresholds = false)
    /\ (classification r = SMALL <->
          citExempt r = true /\ devLevyApplicable r = false)
    /\ (classification r = STANDARD ->
          citExempt r = false /\ devLevyApplicable r = true).
Proof.
  apply (classifyEntity_small_iff Runtime.toLocaleString_en_NG at_both_thresholds);
    vm_compute; discriminate.
Defined.

(** The boundary input is SMALL. *)
Example classifyEntity_at_thresholds_is_small :
  exists r : ClassificationResult,
    classifyEntity Runtime.toLocaleString_en_NG at_both_thresholds = Return r
    /\ classification r = SMALL /\ citExempt r = true
    /\ devLevyApplicable r = false
    /\ reasoning r = [
         "✓ Turnover test: ₦50,000,000.00 ≤ ₦50,000,000.00";
         "✓ Assets test: ₦250,000,000.00 ≤ ₦250,000,000.00";
         EmptyString;
         "✅ CLASSIFICATION: SMALL COMPANY";
         "Tax implications:";
         "  • EXEMPT from Company Income Tax (CIT)";
         "  • NOT subject to Development Levy";
         "  • Subject to VAT at applicable rates" ].
Proof. eexists. split; [vm_compute; reflexivity|]. repeat split. Qed.

(** The documented example: turnover 45,000,000, fixed assets
    200,000,000, not a professional service. *)
Example classifyEntity_documented_example :
  exists r : ClassificationResult,
    classifyEntity Runtime.toLocaleString_en_NG
      {| turnover := lit 45000000;
         fixedAssets := lit 200000000;
         isProfessionalServices := false;
         industryCode := None |} = Return r
    /\ classification r = SMALL /\ citExempt r = true.
Proof. eexists. split; [vm_compute; reflexivity|]. split; reflexivity. Qed.

Lemma classifyEntity_professional_services_legal_practice :
  exists r : ClassificationResult,
    classifyEntity Runtime.toLocaleString_en_NG legal_practice = Return r
    /\ classification r = STANDARD.
Proof.
  eexists. split; [reflexivity|].
  apply (classifyEntity_professional_services Runtime.toLocaleString_en_NG
           legal_practice); reflexivity.
Defined.

(** A turnover of -1 aborts the classification. *)
Lemma classifyEntity_negative_throws_minus_one :
  classifyEntity Runtime.toLocaleString_en_NG negative_turnover
  = Throw "Turnover and fixed assets must be non-negative".
Proof.
  apply classifyEntity_negative_throws. left. vm_compute. reflexivity.
Defined.

(** The rates of the STANDARD result for a turnover of 60,000,000. *)
Lemma classifyEntity_standard_rates_above_turnover :
  exists r : ClassificationResult,
    classifyEntity Runtime.toLocaleString_en_NG above_turnover_threshold
      = Return r
    /\ citRate (taxImplications r) = CIT_2026_ONWARDS
    /\ devLevyRate (taxImplications r) = DEV_LEVY_2025_2026.
Proof.
  eexists. split; [reflexivity|].
  apply (classifyEntity_standard_rates Runtime.toLocaleString_en_NG
           above_turnover_threshold); reflexivity.
Defined.

(** C7, on the code.  A business with turnover 60,000,000 is STANDARD and
    its result carries [citRate = 0.25] and [devLevyRate = 0.04]; the rate
    schedule of the same file gives CIT 0.275 when the current year is
    2025 and Development Levy 0.03 when it is 2027, so the result does
    not follow the schedule in those years. *)
Theorem classifyEntity_standard_rates_ignore_year :
  forall toLocaleString_en_NG : number -> string,
  exists r : ClassificationResult,
    classifyEntity toLocaleString_en_NG above_turnover_threshold = Return r
    /\ classification r = STANDARD
    /\ citRate (taxImplications r) = lit 0.25
    /\ devLevyRate (taxImplications r) = lit 0.04
    /\ getCITRate 2025 None = lit 0.275
    /\ getDevelopmentLevyRate 2027 None = lit 0.03
    /\ citRate (taxImplications r) <> getCITRate 2025 None
    /\ devLevyRate (taxImplications r) <> getDevelopmentLevyRate 2027 None.
Proof.
  intros fmt. eexists. split; [reflexivity|].
  repeat split; try reflexivity; cbn; number_neq.
Qed.

(** The schedule itself, as [getCITRate] and [getDevelopmentLevyRate]
    compute it for an explicit year. *)
Lemma rate_schedule (clock_getFullYear year : Z) :
  ((year = 2025)%Z -> getCITRate clock_getFullYear (Some year) = lit 0.275)
  /\ ((year <> 2025)%Z -> getCITRate clock_getFullYear (Some year) = lit 0.25)
  /\ ((2025 <= year <= 2026)%Z ->
        getDevelopmentLevyRate clock_getFullYear (Some year) = lit 0.04)
  /\ ((2027 <= year <= 2029)%Z ->
        getDevelopmentLevyRate clock_getFullYear (Some year) = lit 0.03)
  /\ ((2030 <= year)%Z ->
        getDevelopmentLevyRate clock_getFullYear (Some year) = lit 0.02).
Proof.
  unfold getCITRate, getDevelopmentLevyRate.
  repeat split; intros H.
  - subst. reflexivity.
  - apply Z.eqb_neq in H. rewrite H. reflexivity.
  - destruct H as [H1 H2]. apply Z.leb_le in H1, H2. rewrite H1, H2. reflexivity.
  - destruct H as [H1 H2].
    assert ((year <=? 2026)%Z = false) as -> by (apply Z.leb_gt; lia).
    apply Z.leb_le in H1, H2. rewrite H1, H2, andb_false_r. reflexivity.
  - assert ((year <=? 2026)%Z = false) as -> by (apply Z.leb_gt; lia).
    assert ((year <=? 2029)%Z = false) as -> by (apply Z.leb_gt; lia).
    rewrite !andb_false_r. reflexivity.
Qed.

End EntityClassificationExamples.

(* ================================================================== *)
(** * Properties of the VAT engine *)
(* ================================================================== *)

Section VatComputationProperties.

Import VatComputation.

Variable toLocaleString_en_NG : number -> string.
Variable toLocaleDateString_en_NG : Date -> string.
Variable Date_parse : string -> Date.
Variable Date_getFullYear : Z -> Z.
Variable clock : Date.

Local Abbreviation getFullYear := (VatComputation.getFullYear Date_getFullYear).
Local Abbreviation formatCurrency :=
  (VatComputation.formatCurrency toLocaleString_en_NG).
Local Abbreviation getVATRate :=
  (VatComputation.getVATRate Date_getFullYear clock).
Local Abbreviation getApplicableVATRate :=
  (VatComputation.getApplicableVATRate Date_getFullYear clock).
Local Abbreviation calculateInvoiceVAT :=
  (VatComputation.calculateInvoiceVAT Date_parse Date_getFullYear clock).
Local Abbreviation inPeriod := (VatComputation.inPeriod Date_parse).
Local Abbreviation withinPeriod := (VatComputation.withinPeriod Date_parse).
Local Abbreviation computeVATPosition :=
  (VatComputation.computeVATPosition toLocaleString_en_NG
     toLocaleDateString_en_NG Date_parse).
Local Abbreviation standalone :=
  (VatComputation.standalone toLocaleString_en_NG
     toLocaleDateString_en_NG Date_parse).
Local Abbreviation cumulativeStep :=
  (VatComputation.cumulativeStep toLocaleString_en_NG
     toLocaleDateString_en_NG Date_parse).
Local Abbreviation cumulativeLoop :=
  (VatComputation.cumulativeLoop toLocaleString_en_NG
     toLocaleDateString_en_NG Date_parse).
Local Abbreviation computeCumulativeVATPosition :=
  (VatComputation.computeCumulativeVATPosition toLocaleString_en_NG
     toLocaleDateString_en_NG Date_parse).
Local Abbreviation applyCredit :=
  (VatComputation.applyCredit toLocaleString_en_NG).
Local Abbreviation carryForward :=
  (VatComputation.carryForward toLocaleString_en_NG
     toLocaleDateString_en_NG Date_parse).
Local Abbreviation adjustedFrom :=
  (VatComputation.adjustedFrom toLocaleString_en_NG
     toLocaleDateString_en_NG Date_parse).
Local Abbreviation checkInvoiceDate :=
  (VatComputation.checkInvoiceDate Date_parse).
Local Abbreviation validateVATInvoice :=
  (VatComputation.validateVATInvoice Date_parse).
Local Abbreviation requirements := (VatComputation.requirements Date_parse).

(* -------------------------------------------------------------- *)
(** ** The rate resolver *)

(** C6. A date in 2025 gets 10%, a date in 2026-2029 gets 12.5%, a date
    in 2030 or later gets 15%; two dates of the same calendar year get
    the same rate. *)
Theorem getVATRate_by_year (date : Date) (year : Z) :
  getFullYear date = Some year ->
  ((year = 2025)%Z -> getVATRate (Some date) = lit 0.1)
  /\ ((2026 <= year <= 2029)%Z -> getVATRate (Some date) = lit 0.125)
  /\ ((2030 <= year)%Z -> getVATRate (Some date) = lit 0.15)
  /\ (forall date' : Date,
        getFullYear date' = getFullYear date ->
        getVATRate (Some date') = getVATRate (Some date)).
Proof.
  intros Hyear. unfold getVATRate.
  repeat split.
  - intros ->. rewrite Hyear. reflexivity.
  - intros [Hlo Hhi]. rewrite Hyear. cbn.
    assert ((year =? 2025)%Z = false) as -> by (apply Z.eqb_neq; lia).
    apply Z.leb_le in Hlo, Hhi. rewrite Hlo, Hhi. reflexivity.
  - intros Hlo. rewrite Hyear. cbn.
    assert ((year =? 2025)%Z = false) as -> by (apply Z.eqb_neq; lia).
    assert ((year <=? 2029)%Z = false) as -> by (apply Z.leb_gt; lia).
    rewrite andb_false_r. reflexivity.
  - intros date' ->. reflexivity.
Qed.

(** C10. A date before 2025 falls through to the last branch: it gets
    the 15% rate, never 10% or 12.5%. *)
Theorem getVATRate_before_2025 (date : Date) (year : Z) :
  getFullYear date = Some year ->
  (year < 2025)%Z ->
  getVATRate (Some date) = lit 0.15
  /\ getVATRate (Some date) <> lit 0.1
  /\ getVATRate (Some date) <> lit 0.125.
Proof.
  intros Hyear Hlt.
  assert (getVATRate (Some date) = lit 0.15) as ->.
  { unfold getVATRate. rewrite Hyear. cbn.
    assert ((year =? 2025)%Z = false) as -> by (apply Z.eqb_neq; lia).
    assert ((2026 <=? year)%Z = false) as -> by (apply Z.leb_gt; lia).
    reflexivity. }
  repeat split; intros E; apply (f_equal this) in E; vm_compute in E;
    discriminate E.
Qed.

(** The standard rate is one of the three of [VAT_RATES], none of them
    zero. *)
Lemma getVATRate_cases (date : option Date) :
  getVATRate date = STANDARD_2025
  \/ getVATRate date = STANDARD_2026_2029
  \/ getVATRate date = STANDARD_2030.
Proof.
  unfold getVATRate.
  destruct (year_eq _ 2025); [now left|].
  destruct (year_ge _ 2026 && year_le _ 2029); [right; now left|].
  right; now right.
Qed.

Lemma getVATRate_nonzero (date : option Date) : getVATRate date <> 0.
Proof.
  destruct (getVATRate_cases date) as [-> | [-> | ->]];
    intros E; apply (f_equal this) in E; vm_compute in E; discriminate E.
Qed.

(* -------------------------------------------------------------- *)
(** ** The invoice calculator *)

Lemma sum_app (xs ys : list number) : sum (xs ++ ys) = sum xs + sum ys.
Proof.
  unfold sum. induction xs as [|x xs IH]; cbn [app fold_right].
  - now rewrite Qcplus_0_l.
  - now rewrite IH, Qcplus_assoc.
Qed.

(** What the two accumulators and the mapped array hold after the
    callback has run over [items]. *)
Lemma fold_calculateLine (standardRate : number) (items : list VATLineItem.t) :
  forall subtotal totalVAT calculated,
    fold_left (calculateLine standardRate) items
      (subtotal, totalVAT, calculated)
    = (subtotal
         + sum (map CalculatedLineItem.lineTotal
                  (map (calculatedLine standardRate) items)),
       totalVAT
         + sum (map CalculatedLineItem.vat
                  (map (calculatedLine standardRate) items)),
       (calculated ++ map (calculatedLine standardRate) items)%list).
Proof.
  induction items as [|item items IH]; intros subtotal totalVAT calculated.
  - cbn. now rewrite !Qcplus_0_r, app_nil_r.
  - cbn [fold_left map]. unfold calculateLine at 2. rewrite IH.
    unfold push. rewrite <- app_assoc. cbn [app sum fold_right].
    fold (calculatedLine standardRate item).
    fold (sum (map CalculatedLineItem.lineTotal
                 (map (calculatedLine standardRate) items))).
    fold (sum (map CalculatedLineItem.vat
                 (map (calculatedLine standardRate) items))).
    cbn [calculatedLine CalculatedLineItem.lineTotal CalculatedLineItem.vat].
    now rewrite !Qcplus_assoc.
Qed.

Lemma calculateInvoiceVAT_lineItems (invoice : InvoiceDetails.t) :
  VATInvoiceCalculation.lineItems (calculateInvoiceVAT invoice)
  = map (calculatedLine
           (getVATRate (Some (Date_parse (InvoiceDetails.invoiceDate invoice)))))
      (InvoiceDetails.lineItems invoice).
Proof.
  unfold calculateInvoiceVAT. rewrite fold_calculateLine. reflexivity.
Qed.

(** C4. The breakdown has one entry per line item, in order, with
    [lineTotal = quantity * unitPrice]; [subtotal] is the sum of the
    line totals, [vatAmount] the sum of the line VAT amounts, and
    [totalAmount = subtotal + vatAmount]. *)
Theorem calculateInvoiceVAT_totals (invoice : InvoiceDetails.t) :
  let calculation := calculateInvoiceVAT invoice in
  let lines := VATInvoiceCalculation.lineItems calculation in
  map CalculatedLineItem.item lines = InvoiceDetails.lineItems invoice
  /\ Forall
       (fun line =>
          CalculatedLineItem.lineTotal line
          = VATLineItem.quantity (CalculatedLineItem.item line)
            * VATLineItem.unitPrice (CalculatedLineItem.item line))
       lines
  /\ VATInvoiceCalculation.subtotal calculation
     = sum (map CalculatedLineItem.lineTotal lines)
  /\ VATInvoiceCalculation.vatAmount calculation
     = sum (map CalculatedLineItem.vat lines)
  /\ VATInvoiceCalculation.totalAmount calculation
     = VATInvoiceCalculation.subtotal calculation
       + VATInvoiceCalculation.vatAmount calculation.
Proof.
  cbv zeta. rewrite calculateInvoiceVAT_lineItems.
  unfold calculateInvoiceVAT. rewrite fold_calculateLine.
  cbn [VATInvoiceCalculation.subtotal VATInvoiceCalculation.vatAmount
       VATInvoiceCalculation.totalAmount].
  rewrite !Qcplus_0_l.
  repeat split.
  - rewrite map_map. cbn. apply map_id.
  - apply Forall_map, Forall_forall. intros item _. reflexivity.
Qed.

(** C5. Every line is taxed at [applicableRate], which is 0 exactly
    when the line's [isBasicItem] field is [true] and the standard rate
    of the invoice date otherwise; a line flagged [true] contributes no
    VAT, and a line not flagged is taxed at the standard rate even when
    [isBasicItem(description)] holds, where [getApplicableVATRate]
    would have given 0. *)
Theorem calculateInvoiceVAT_explicit_flag_only (invoice : InvoiceDetails.t) :
  let invoiceDate := Date_parse (InvoiceDetails.invoiceDate invoice) in
  let standardRate := getVATRate (Some invoiceDate) in
  Forall2
    (fun item line =>
       CalculatedLineItem.item line = item
       /\ CalculatedLineItem.vat line
          = VATLineItem.quantity item * VATLineItem.unitPrice item
            * applicableRate standardRate item)
    (InvoiceDetails.lineItems invoice)
    (VATInvoiceCalculation.lineItems (calculateInvoiceVAT invoice))
  /\ (forall item : VATLineItem.t,
        (applicableRate standardRate item = 0
           <-> VATLineItem.isBasicItem item = Some true)
        /\ (VATLineItem.isBasicItem item = Some true ->
              CalculatedLineItem.vat (calculatedLine standardRate item) = 0)
        /\ (VATLineItem.isBasicItem item <> Some true ->
              applicableRate standardRate item = standardRate)
        /\ (VATLineItem.isBasicItem item <> Some true ->
              isBasicItem (VATLineItem.description item) = true ->
              applicableRate standardRate item
              <> getApplicableVATRate (VATLineItem.description item)
                   (Some invoiceDate))).
Proof.
  cbv zeta. split.
  - rewrite calculateInvoiceVAT_lineItems.
    induction (InvoiceDetails.lineItems invoice) as [|item items IH];
      constructor; [split; reflexivity | exact IH].
  - intros item.
    pose proof (getVATRate_nonzero
                  (Some (Date_parse (InvoiceDetails.invoiceDate invoice)))) as Hnz.
    unfold calculatedLine, getApplicableVATRate, applicableRate.
    cbn [CalculatedLineItem.vat].
    destruct (VATLineItem.isBasicItem item) as [[|]|]; cbn [truthy_bool].
    all: repeat split; intros; try reflexivity; try congruence.
    all: try (unfold BASIC_ITEMS; apply Qcmult_0_r).
    all: match goal with
         | H : isBasicItem _ = true |- _ => rewrite H; exact Hnz
         end.
Qed.

(* -------------------------------------------------------------- *)
(** ** The period position *)

Lemma Math_max_0_nonneg (x : number) : 0 <= x -> Math_max 0 x = x.
Proof.
  intros Hx. unfold Math_max. destruct (lt 0 x) eqn:E; [reflexivity|].
  apply lt_false_iff in E. now apply Qcle_antisym.
Qed.

Lemma Math_max_0_nonpos (x : number) : x <= 0 -> Math_max 0 x = 0.
Proof.
  intros Hx. unfold Math_max. destruct (lt 0 x) eqn:E; [|reflexivity].
  apply lt_true_iff in E. exfalso. qc2q. lra.
Qed.

Lemma Math_max_0_ge (x : number) : 0 <= Math_max 0 x.
Proof.
  unfold Math_max. destruct (lt 0 x) eqn:E.
  - apply lt_true_iff in E. now apply Qclt_le_weak.
  - apply Qcle_refl.
Qed.

Lemma fold_reduceVAT (invoices : list VATInvoice.t) :
  forall acc : number,
    fold_left (fun sum inv => sum + Number (VATInvoice.vatAmount inv))
      invoices acc
    = acc + sum (map VATInvoice.vatAmount invoices).
Proof.
  induction invoices as [|inv invoices IH]; intros acc.
  - cbn. now rewrite Qcplus_0_r.
  - cbn [fold_left map]. rewrite IH. unfold Number, sum.
    cbn [fold_right]. now rewrite Qcplus_assoc.
Qed.

Lemma reduceVAT_sum (invoices : list VATInvoice.t) :
  reduceVAT invoices = sum (map VATInvoice.vatAmount invoices).
Proof. unfold reduceVAT. rewrite fold_reduceVAT. apply Qcplus_0_l. Qed.

Lemma inPeriod_iff (periodStart periodEnd : string) (inv : VATInvoice.t) :
  inPeriod periodStart periodEnd inv = true
  <-> withinPeriod periodStart periodEnd inv.
Proof.
  unfold inPeriod, withinPeriod, Date_ge, Date_le.
  destruct (Date_parse periodStart) as [start|];
    destruct (Date_parse (VATInvoice.invoiceDate inv)) as [date|];
    destruct (Date_parse periodEnd) as [end_|]; cbn [andb];
    rewrite ?andb_false_r;
    (split;
     [| intros (a & b & c & Ha & Hb & Hc & H1 & H2)]);
    try discriminate.
  - intros H. apply andb_true_iff in H as [H1 H2].
    apply Z.leb_le in H1, H2. exists start, date, end_. auto.
  - injection Ha as <-. injection Hb as <-. injection Hc as <-.
    apply andb_true_iff. split; now apply Z.leb_le.
Qed.

(** The two clamped directions of one difference. *)
Lemma net_position_cases (outputVAT inputVAT : number) :
  let netVATPayable := Math_max 0 (outputVAT - inputVAT) in
  let excessCredit := Math_max 0 (inputVAT - outputVAT) in
  (inputVAT <= outputVAT ->
     netVATPayable = outputVAT - inputVAT /\ excessCredit = 0)
  /\ (outputVAT <= inputVAT ->
        netVATPayable = 0 /\ excessCredit = inputVAT - outputVAT).
Proof.
  cbv zeta. split; intros H; split.
  - apply Math_max_0_nonneg. qc2q. lra.
  - apply Math_max_0_nonpos. qc2q. lra.
  - apply Math_max_0_nonpos. qc2q. lra.
  - apply Math_max_0_nonneg. qc2q. lra.
Qed.

(** C2. The position counts and sums exactly the invoices dated within
    the period, both ends included: [outputVAT] is the sum of
    [vatAmount] over the kept OUTPUT invoices, [inputVAT] the sum over
    the kept INPUT invoices; [netVATPayable] and [excessCredit] are the
    two differences clamped at zero, hence never both non-zero. *)
Theorem computeVATPosition_period_sums (invoices : list VATInvoice.t)
    (periodStart periodEnd : string) :
  let position := computeVATPosition invoices periodStart periodEnd in
  let kept := filter (inPeriod periodStart periodEnd) invoices in
  let outputVAT := VATPosition.outputVAT position in
  let inputVAT := VATPosition.inputVAT position in
  let netVATPayable := VATPosition.netVATPayable position in
  let excessCredit := VATPosition.excessCredit position in
  (forall inv : VATInvoice.t,
     inPeriod periodStart periodEnd inv = true
     <-> withinPeriod periodStart periodEnd inv)
  /\ (forall inv : VATInvoice.t,
        In inv kept
        <-> In inv invoices /\ withinPeriod periodStart periodEnd inv)
  /\ InvoiceCount.total (VATPosition.invoiceCount position) = List.length kept
  /\ outputVAT
     = sum (map VATInvoice.vatAmount
              (filter (fun inv =>
                         match VATInvoice.invoiceType inv with
                         | OUTPUT => true
                         | INPUT => false
                         end) kept))
  /\ inputVAT
     = sum (map VATInvoice.vatAmount
              (filter (fun inv =>
                         match VATInvoice.invoiceType inv with
                         | INPUT => true
                         | OUTPUT => false
                         end) kept))
  /\ 0 <= netVATPayable
  /\ 0 <= excessCredit
  /\ (inputVAT <= outputVAT ->
        netVATPayable = outputVAT - inputVAT /\ excessCredit = 0)
  /\ (outputVAT <= inputVAT ->
        netVATPayable = 0 /\ excessCredit = inputVAT - outputVAT)
  /\ ~ (netVATPayable <> 0 /\ excessCredit <> 0).
Proof.
  cbv zeta. unfold computeVATPosition.
  cbn [VATPosition.outputVAT VATPosition.inputVAT VATPosition.netVATPayable
       VATPosition.excessCredit VATPosition.invoiceCount InvoiceCount.total].
  set (kept := filter (inPeriod periodStart periodEnd) invoices).
  set (o := reduceVAT (filter isOutput kept)).
  set (i := reduceVAT (filter isInput kept)).
  destruct (net_position_cases o i) as [Hoi Hio].
  split; [|split; [|split; [|split; [|split; [|split; [|split; [|split; [|split]]]]]]]].
  - intros inv. apply inPeriod_iff.
  - intros inv. unfold kept. rewrite filter_In, inPeriod_iff. reflexivity.
  - reflexivity.
  - unfold o. apply reduceVAT_sum.
  - unfold i. apply reduceVAT_sum.
  - apply Math_max_0_ge.
  - apply Math_max_0_ge.
  - exact Hoi.
  - exact Hio.
  - intros [Hnet Hexc].
    destruct (Qclt_le_dec o i) as [Hlt | Hle].
    + apply Hnet, Hio. now apply Qclt_le_weak.
    + apply Hexc, Hoi. exact Hle.
Qed.

(** The accounting identity of a standalone position. *)
Lemma computeVATPosition_identity (invoices : list VATInvoice.t)
    (periodStart periodEnd : string) :
  let position := computeVATPosition invoices periodStart periodEnd in
  VATPosition.netVATPayable position + VATPosition.inputVAT position
  = VATPosition.outputVAT position + VATPosition.excessCredit position.
Proof.
  cbv zeta. unfold computeVATPosition.
  cbn [VATPosition.outputVAT VATPosition.inputVAT VATPosition.netVATPayable
       VATPosition.excessCredit].
  set (o := reduceVAT _). set (i := reduceVAT _).
  destruct (net_position_cases o i) as [Hoi Hio].
  destruct (Qclt_le_dec o i) as [Hlt | Hle].
  - apply Qclt_le_weak in Hlt. destruct (Hio Hlt) as [-> ->]. ring.
  - destruct (Hoi Hle) as [-> ->]. ring.
Qed.

(** A payable position carries no excess credit. *)
Lemma computeVATPosition_payable_no_credit (invoices : list VATInvoice.t)
    (periodStart periodEnd : string) :
  let position := computeVATPosition invoices periodStart periodEnd in
  0 < VATPosition.netVATPayable position ->
  VATPosition.excessCredit position = 0.
Proof.
  cbv zeta. unfold computeVATPosition.
  cbn [VATPosition.netVATPayable VATPosition.excessCredit].
  set (o := reduceVAT _). set (i := reduceVAT _).
  destruct (net_position_cases o i) as [Hoi Hio].
  destruct (Qclt_le_dec o i) as [Hlt | Hle].
  - apply Qclt_le_weak in Hlt. destruct (Hio Hlt) as [-> _].
    intros H. exfalso. revert H. apply Qcle_not_lt, Qcle_refl.
  - intros _. now destruct (Hoi Hle).
Qed.

(* -------------------------------------------------------------- *)
(** ** Carry-forward across periods *)

Lemma adjustedPayable_min (carry net : number) :
  Math_max 0 (net - carry) = net - min carry net.
Proof.
  unfold min. destruct (le carry net) eqn:E.
  - apply le_true_iff in E. apply Math_max_0_nonneg. qc2q. lra.
  - apply le_false_iff in E. rewrite Math_max_0_nonpos.
    + qc2q. lra.
    + qc2q. lra.
Qed.

Lemma creditUsed_min (carry net : number) :
  net - Math_max 0 (net - carry) = min carry net.
Proof. rewrite adjustedPayable_min. qc2q. lra. Qed.

Lemma cumulativeStep_applyCredit (positions : list VATPosition.t)
    (carry : number) (period : Period.t) :
  cumulativeStep (positions, carry) period
  = ((positions ++ [fst (applyCredit carry (standalone period))])%list,
     snd (applyCredit carry (standalone period))
       + VATPosition.excessCredit (standalone period)).
Proof.
  unfold cumulativeStep, applyCredit. fold (standalone period).
  destruct (lt 0 carry); [|reflexivity].
  rewrite creditUsed_min, adjustedPayable_min.
  unfold VATPosition.push_summary, VATPosition.set_netVATPayable, push.
  cbn. rewrite <- app_assoc. reflexivity.
Qed.

Lemma fold_cumulativeStep (periods : list Period.t) :
  forall (positions : list VATPosition.t) (carry : number),
    fold_left cumulativeStep periods (positions, carry)
    = ((positions ++ fst (carryForward carry periods))%list,
       snd (carryForward carry periods)).
Proof.
  induction periods as [|period rest IH]; intros positions carry.
  - cbn. now rewrite app_nil_r.
  - cbn [fold_left carryForward]. rewrite cumulativeStep_applyCredit, IH.
    destruct (applyCredit carry (standalone period)) as [adjusted remaining].
    destruct (carryForward _ rest) as [tail final].
    cbn [fst snd]. now rewrite <- app_assoc.
Qed.

Lemma cumulativeLoop_carryForward (periods : list Period.t) :
  cumulativeLoop periods = carryForward 0 periods.
Proof.
  unfold cumulativeLoop. rewrite fold_cumulativeStep.
  now destruct (carryForward 0 periods).
Qed.


Lemma applyCredit_adjustedFrom (carry : number) (period : Period.t) :
  adjustedFrom period (fst (applyCredit carry (standalone period))).
Proof.
  pose proof (computeVATPosition_identity (Period.invoices period)
                (Period.start period) (Period.end_ period)) as Hid.
  cbv zeta in Hid. fold (standalone period) in Hid.
  assert (0 <= VATPosition.netVATPayable (standalone period)) as Hnet
    by apply Math_max_0_ge.
  unfold adjustedFrom, applyCredit. destruct (lt 0 carry) eqn:Hc;
    cbn [fst VATPosition.push_summary VATPosition.set_netVATPayable
         VATPosition.outputVAT VATPosition.inputVAT
         VATPosition.excessCredit VATPosition.netVATPayable].
  - repeat split.
    exists (min carry (VATPosition.netVATPayable (standalone period))).
    apply lt_true_iff in Hc.
    assert (0 <= min carry (VATPosition.netVATPayable (standalone period))
            /\ min carry (VATPosition.netVATPayable (standalone period))
               <= VATPosition.netVATPayable (standalone period)) as [Hlo Hhi].
    { unfold min. destruct (le carry _) eqn:El.
      - apply le_true_iff in El. split; [now apply Qclt_le_weak | exact El].
      - split; [exact Hnet | apply Qcle_refl]. }
    repeat split; try assumption.
    rewrite <- Hid. qc2q. lra.
  - repeat split.
    exists 0. repeat split.
    + apply Qcle_refl.
    + exact Hnet.
    + qc2q. lra.
    + rewrite <- Hid. qc2q. lra.
Qed.

Lemma carryForward_adjustedFrom (periods : list Period.t) :
  forall carry : number,
    Forall2 adjustedFrom periods (fst (carryForward carry periods)).
Proof.
  induction periods as [|period rest IH]; intros carry; [constructor|].
  cbn [carryForward].
  pose proof (applyCredit_adjustedFrom carry period) as Hadj.
  destruct (applyCredit carry (standalone period)) as [adjusted remaining].
  specialize (IH (remaining + VATPosition.excessCredit (standalone period))).
  destruct (carryForward _ rest) as [tail final].
  constructor; [exact Hadj | exact IH].
Qed.


(* -------------------------------------------------------------- *)
(** ** The invoice validator *)

(** Each check leaves [errors] as it is or appends one message. *)
Lemma checkInvoiceNumber_app invoice errors :
  checkInvoiceNumber invoice errors
  = (errors ++ checkInvoiceNumber invoice [])%list.
Proof.
  unfold checkInvoiceNumber, push.
  destruct (negb _); cbn; now rewrite ?app_nil_r.
Qed.

Lemma checkInvoiceDate_app invoice errors :
  checkInvoiceDate invoice errors
  = (errors ++ checkInvoiceDate invoice [])%list.
Proof.
  unfold checkInvoiceDate, push.
  destruct (negb _); [reflexivity|].
  destruct (PartialVATInvoice.invoiceDate invoice) as [text|];
    [destruct (Date_parse text)|]; cbn; now rewrite ?app_nil_r.
Qed.

Lemma checkCustomerName_app invoice errors :
  checkCustomerName invoice errors
  = (errors ++ checkCustomerName invoice [])%list.
Proof.
  unfold checkCustomerName, push.
  destruct (negb _); cbn; now rewrite ?app_nil_r.
Qed.

Lemma checkGrossAmount_app invoice errors :
  checkGrossAmount invoice errors
  = (errors ++ checkGrossAmount invoice [])%list.
Proof.
  unfold checkGrossAmount, push.
  destruct (_ || _); cbn; now rewrite ?app_nil_r.
Qed.

Lemma checkInvoiceType_app invoice errors :
  checkInvoiceType invoice errors
  = (errors ++ checkInvoiceType invoice [])%list.
Proof.
  unfold checkInvoiceType, push.
  destruct (_ || _); cbn; now rewrite ?app_nil_r.
Qed.

Lemma checkVATAmount_app invoice errors :
  checkVATAmount invoice errors
  = (errors ++ checkVATAmount invoice [])%list.
Proof.
  unfold checkVATAmount, push.
  destruct (PartialVATInvoice.grossAmount invoice) as [g|];
    [destruct (PartialVATInvoice.vatRate invoice) as [r|];
     [destruct (truthy_number (Some g)); [destruct (lt _ _)|]|]|];
    cbn; now rewrite ?app_nil_r.
Qed.

(** The errors are the reports of the six checks, in the order of the
    checks. *)
Lemma validateVATInvoice_errors (invoice : PartialVATInvoice.t) :
  ValidationResult.errors (validateVATInvoice invoice)
  = (checkInvoiceNumber invoice []
       ++ checkInvoiceDate invoice []
       ++ checkCustomerName invoice []
       ++ checkGrossAmount invoice []
       ++ checkInvoiceType invoice []
       ++ checkVATAmount invoice [])%list.
Proof.
  unfold validateVATInvoice. cbn [ValidationResult.errors].
  rewrite checkVATAmount_app, checkInvoiceType_app, checkGrossAmount_app,
    checkCustomerName_app, checkInvoiceDate_app.
  now rewrite <- !app_assoc.
Qed.

Lemma truthy_string_iff (field : option string) :
  truthy_string field = true <-> nonEmpty field.
Proof.
  unfold nonEmpty. destruct field as [[|c text]|]; cbn; split;
    try discriminate; try (intros (c' & t' & [=])); eauto.
Qed.

Lemma checkInvoiceNumber_ok invoice :
  checkInvoiceNumber invoice [] = []
  <-> nonEmpty (PartialVATInvoice.invoiceNumber invoice).
Proof.
  rewrite <- truthy_string_iff. unfold checkInvoiceNumber.
  destruct (truthy_string _); cbn; split; congruence.
Qed.

Lemma checkCustomerName_ok invoice :
  checkCustomerName invoice [] = []
  <-> nonEmpty (PartialVATInvoice.customerName invoice).
Proof.
  rewrite <- truthy_string_iff. unfold checkCustomerName.
  destruct (truthy_string _); cbn; split; congruence.
Qed.

Lemma checkInvoiceDate_ok invoice :
  checkInvoiceDate invoice [] = []
  <-> exists (invoiceDate : string) (time : Z),
        PartialVATInvoice.invoiceDate invoice = Some invoiceDate
        /\ invoiceDate <> EmptyString
        /\ Date_parse invoiceDate = Some time.
Proof.
  unfold checkInvoiceDate.
  destruct (PartialVATInvoice.invoiceDate invoice) as [[|c text]|]; cbn.
  - split; [discriminate|]. intros (d & t & [= <-] & Hne & _). congruence.
  - destruct (Date_parse (String c text)) as [time|] eqn:E; cbn.
    + split; [|reflexivity]. intros _.
      exists (String c text), time. repeat split; congruence.
    + split; [discriminate|].
      intros (d & t & [= <-] & _ & Ht). congruence.
  - split; [discriminate|]. intros (d & t & [=] & _).
Qed.

Lemma truthy_number_nonneg (g : number) :
  negb (truthy_number (Some g)) || lt g 0 = false <-> 0 < g.
Proof.
  cbn [truthy_number]. rewrite negb_involutive, orb_false_iff, lt_false_iff.
  rewrite <- not_true_iff_false, Qeq_bool_iff.
  unfold Qcle, Qclt. cbn. split.
  - intros [Hne Hle]. apply Qle_lteq in Hle as [Hlt | Heq];
      [exact Hlt | now symmetry in Heq].
  - intros Hlt. split.
    + intros Heq. rewrite Heq in Hlt. now apply Qlt_irrefl in Hlt.
    + now apply Qlt_le_weak.
Qed.

Lemma checkGrossAmount_ok invoice :
  checkGrossAmount invoice [] = []
  <-> exists grossAmount : number,
        PartialVATInvoice.grossAmount invoice = Some grossAmount
        /\ 0 < grossAmount.
Proof.
  unfold checkGrossAmount.
  destruct (PartialVATInvoice.grossAmount invoice) as [g|].
  - pose proof (truthy_number_nonneg g) as H.
    destruct (negb (truthy_number (Some g)) || lt g 0); cbn.
    + split; [discriminate|]. intros (g' & [= <-] & Hpos).
      apply H in Hpos. discriminate.
    + split; [|reflexivity]. intros _. exists g. split; [reflexivity|].
      now apply H.
  - cbn. split; [discriminate|]. intros (g & [=] & _).
Qed.

Lemma checkInvoiceType_ok invoice :
  checkInvoiceType invoice [] = []
  <-> PartialVATInvoice.invoiceType invoice = Some "OUTPUT"
      \/ PartialVATInvoice.invoiceType invoice = Some "INPUT".
Proof.
  unfold checkInvoiceType.
  destruct (PartialVATInvoice.invoiceType invoice) as [ty|]; cbn.
  - destruct (String.eqb_spec ty "OUTPUT") as [-> | Ho];
      [cbn; split; auto|].
    destruct (String.eqb_spec ty "INPUT") as [-> | Hi];
      [cbn; split; auto|].
    cbn. rewrite orb_true_r. cbn.
    split; [discriminate|]. intros [[=] | [=]]; congruence.
  - split; [discriminate|]. intros [[=] | [=]].
Qed.

Lemma truthy_number_iff (g : number) :
  truthy_number (Some g) = true <-> g <> 0.
Proof.
  cbn [truthy_number]. rewrite negb_true_iff, <- not_true_iff_false.
  rewrite Qeq_bool_iff. split; intros H E; apply H.
  - now rewrite E.
  - now apply Qc_is_canon.
Qed.

Lemma checkVATAmount_ok invoice :
  checkVATAmount invoice [] = []
  <-> forall grossAmount vatRate : number,
        PartialVATInvoice.grossAmount invoice = Some grossAmount ->
        grossAmount <> 0 ->
        PartialVATInvoice.vatRate invoice = Some vatRate ->
        Math_abs
          (or_default (PartialVATInvoice.vatAmount invoice) 0
           - grossAmount * vatRate) <= lit 0.01.
Proof.
  unfold checkVATAmount.
  destruct (PartialVATInvoice.grossAmount invoice) as [g|];
    [|split; [intros _ g r [=] | reflexivity]].
  destruct (PartialVATInvoice.vatRate invoice) as [r|];
    [|split; [intros _ g' r [= <-] _ [=] | reflexivity]].
  pose proof (truthy_number_iff g) as Hg.
  destruct (truthy_number (Some g)).
  - destruct (lt (lit 0.01) _) eqn:E; cbn.
    + split; [discriminate|]. intros H.
      specialize (H g r eq_refl (proj1 Hg eq_refl) eq_refl).
      apply lt_false_iff in H. congruence.
    + split; [|reflexivity]. intros _ g' r' [= <-] _ [= <-].
      now apply lt_false_iff.
  - split; [|reflexivity]. intros _ g' r' [= <-] Hne _.
    apply Hg in Hne. discriminate.
Qed.

Lemma requirements_reported (invoice : PartialVATInvoice.t) :
  Forall reportsViolation (requirements invoice).
Proof.
  assert (forall message : string,
            push [] [message] = []
            \/ exists m : string, push [] [message] = [m]) as Hpush
    by (intros message; right; now exists message).
  assert (forall A : Type, @nil A = [] \/ exists m : A, [] = [m]) as Hnil
    by (intros A; now left).
  unfold requirements.
  repeat (apply Forall_cons;
          [unfold reportsViolation; cbn [fst snd]; split|]);
    [..|apply Forall_nil].
  - apply checkInvoiceNumber_ok.
  - unfold checkInvoiceNumber. destruct (negb _); auto.
  - apply checkInvoiceDate_ok.
  - unfold checkInvoiceDate. destruct (negb _); auto.
    destruct (PartialVATInvoice.invoiceDate invoice) as [text|]; auto.
    cbv zeta. destruct (Date_parse text); auto.
  - apply checkCustomerName_ok.
  - unfold checkCustomerName. destruct (negb _); auto.
  - apply checkGrossAmount_ok.
  - unfold checkGrossAmount. destruct (_ || _); auto.
  - apply checkInvoiceType_ok.
  - unfold checkInvoiceType. destruct (_ || _); auto.
  - apply checkVATAmount_ok.
  - unfold checkVATAmount.
    destruct (PartialVATInvoice.grossAmount invoice) as [g|]; auto.
    destruct (PartialVATInvoice.vatRate invoice) as [r|]; auto.
    destruct (truthy_number (Some g)); auto.
    cbv zeta. destruct (lt _ _); auto.
Qed.


End VatComputationProperties.

(* ------------------------------------------------------------------ *)
(** ** The VAT engine on the reference runtime *)

Section VatComputationExamples.

Import VatComputation.

(** C6 on 1 June 2025: the year is 2025 and the rate 10%. *)
Lemma getVATRate_by_year_june_2025 :
  getFullYear Runtime.Date_getFullYear (Runtime.Date_parse "2025-06-01")
    = Some 2025%Z
  /\ getVATRate Runtime.Date_getFullYear Runtime.clock
       (Some (Runtime.Date_parse "2025-06-01")) = lit 0.1.
Proof.
  split; [vm_compute; reflexivity|].
  apply (getVATRate_by_year Runtime.Date_getFullYear Runtime.clock
           (Runtime.Date_parse "2025-06-01") 2025%Z);
    [vm_compute; reflexivity | reflexivity].
Defined.

(** The three documented rates. *)
Example getVATRate_documented :
  getVATRate Runtime.Date_getFullYear Runtime.clock
    (Some (Runtime.Date_parse "2025-06-01")) = lit 0.1
  /\ getVATRate Runtime.Date_getFullYear Runtime.clock
       (Some (Runtime.Date_parse "2026-01-01")) = lit 0.125
  /\ getVATRate Runtime.Date_getFullYear Runtime.clock
       (Some (Runtime.Date_parse "2029-12-31")) = lit 0.125
  /\ getVATRate Runtime.Date_getFullYear Runtime.clock
       (Some (Runtime.Date_parse "2030-01-01")) = lit 0.15.
Proof. repeat split; apply Qc_is_canon; vm_compute; reflexivity. Qed.

(** C10 on 15 March 2024: the year is 2024 and the rate 15%. *)
Lemma getVATRate_before_2025_march_2024 :
  getFullYear Runtime.Date_getFullYear (Runtime.Date_parse "2024-03-15")
    = Some 2024%Z
  /\ getVATRate Runtime.Date_getFullYear Runtime.clock
       (Some (Runtime.Date_parse "2024-03-15")) = lit 0.15.
Proof.
  split; [vm_compute; reflexivity|].
  apply (getVATRate_before_2025 Runtime.Date_getFullYear Runtime.clock
           (Runtime.Date_parse "2024-03-15") 2024%Z);
    [vm_compute; reflexivity | lia].
Defined.

Example calculateInvoiceVAT_documented :
  let calculation :=
    calculateInvoiceVAT Runtime.Date_parse Runtime.Date_getFullYear
      Runtime.clock (invoice_of [laptop; rice_flagged]) in
  VATInvoiceCalculation.subtotal calculation = lit 600000
  /\ VATInvoiceCalculation.vatRate calculation = lit 0.1
  /\ VATInvoiceCalculation.vatAmount calculation = lit 50000
  /\ VATInvoiceCalculation.totalAmount calculation = lit 650000.
Proof. repeat split; apply Qc_is_canon; vm_compute; reflexivity. Qed.

(** Without the flag the same rice is taxed at 10%, although its
    description is a basic item for [isBasicItem] and
    [getApplicableVATRate]. *)
Example calculateInvoiceVAT_no_keyword_inference :
  let calculation :=
    calculateInvoiceVAT Runtime.Date_parse Runtime.Date_getFullYear
      Runtime.clock (invoice_of [laptop; rice_unflagged]) in
  isBasicItem "Rice 50kg" = true
  /\ getApplicableVATRate Runtime.Date_getFullYear Runtime.clock "Rice 50kg"
       (Some (Runtime.Date_parse "2025-06-01")) = 0
  /\ map CalculatedLineItem.vat (VATInvoiceCalculation.lineItems calculation)
     = [lit 50000; lit 10000]
  /\ VATInvoiceCalculation.vatAmount calculation = lit 60000.
Proof.
  cbv zeta. split; [vm_compute; reflexivity|].
  split; [apply Qc_is_canon; vm_compute; reflexivity|].
  split; [|apply Qc_is_canon; vm_compute; reflexivity].
  rewrite calculateInvoiceVAT_lineItems. cbn [map invoice_of InvoiceDetails.lineItems].
  f_equal; [|f_equal]; apply Qc_is_canon; vm_compute; reflexivity.
Qed.

(** Both boundary days of February are counted, 1 March is not. *)
Example computeVATPosition_february :
  let position :=
    computeVATPosition Runtime.toLocaleString_en_NG
      Runtime.toLocaleDateString_en_NG Runtime.Date_parse
      (Period.invoices february) "2025-02-01" "2025-02-28" in
  VATPosition.invoiceCount position
    = {| InvoiceCount.output := 2; InvoiceCount.input := 0;
         InvoiceCount.total := 2 |}
  /\ VATPosition.outputVAT position = lit 1500
  /\ VATPosition.netVATPayable position = lit 1500
  /\ VATPosition.excessCredit position = 0
  /\ VATPosition.summary position = [
       "VAT Position for 1 Feb 2025 to 28 Feb 2025";
       EmptyString;
       "Output VAT (Sales): ₦1,500.00";
       "  From 2 sales invoices";
       EmptyString;
       "Input VAT (Purchases): ₦0.00";
       "  From 0 purchase invoices";
       EmptyString;
       "Net VAT Payable: ₦1,500.00";
       "Action: Remit to FIRS by 21st of following month" ].
Proof.
  cbv zeta. split; [vm_compute; reflexivity|].
  split; [apply Qc_is_canon; vm_compute; reflexivity|].
  split; [apply Qc_is_canon; vm_compute; reflexivity|].
  split; [apply Qc_is_canon; vm_compute; reflexivity|].
  vm_compute. reflexivity.
Qed.


(** The note reads [Carry-forward credit applied: ₦1,000.00]. *)
Example computeCumulativeVATPosition_note :
  map VATPosition.summary
    (computeCumulativeVATPosition Runtime.toLocaleString_en_NG
       Runtime.toLocaleDateString_en_NG Runtime.Date_parse [january; february])
  = [ [ "VAT Position for 1 Jan 2025 to 31 Jan 2025";
        EmptyString;
        "Output VAT (Sales): ₦0.00";
        "  From 0 sales invoices";
        EmptyString;
        "Input VAT (Purchases): ₦1,000.00";
        "  From 1 purchase invoices";
        EmptyString;
        "Excess Credit: ₦1,000.00";
        "Action: Carry forward to next period" ];
      [ "VAT Position for 1 Feb 2025 to 28 Feb 2025";
        EmptyString;
        "Output VAT (Sales): ₦1,500.00";
        "  From 2 sales invoices";
        EmptyString;
        "Input VAT (Purchases): ₦0.00";
        "  From 0 purchase invoices";
        EmptyString;
        "Net VAT Payable: ₦1,500.00";
        "Action: Remit to FIRS by 21st of following month";
        EmptyString;
        "Carry-forward credit applied: ₦1,000.00" ] ].
Proof. vm_compute. reflexivity. Qed.



(** The validator reports every violation: an empty invoice gets the five
    messages of the five checks that fail on it. *)
Example validateVATInvoice_empty :
  validateVATInvoice Runtime.Date_parse
    {| PartialVATInvoice.id := None;
       PartialVATInvoice.invoiceNumber := None;
       PartialVATInvoice.invoiceDate := None;
       PartialVATInvoice.customerName := None;
       PartialVATInvoice.customerTIN := None;
       PartialVATInvoice.grossAmount := None;
       PartialVATInvoice.vatRate := None;
       PartialVATInvoice.vatAmount := None;
       PartialVATInvoice.totalAmount := None;
       PartialVATInvoice.invoiceType := None;
       PartialVATInvoice.isBasicItem := None;
       PartialVATInvoice.lineItems := None |}
  = {| ValidationResult.valid := false;
       ValidationResult.errors := [
         "Invoice number is required";
         "Invoice date is required";
         "Customer name is required";
         "Valid gross amount is required";
         "Invoice type must be OUTPUT or INPUT" ] |}.
Proof. vm_compute. reflexivity. Qed.

End VatComputationExamples.


